(** * enchannel-zmq-backend-6: the channel multiplexer of the raw kernel

    A shallow embedding of
      src/client/datascience/raw-kernel/enchannel-zmq-backend-6/index.ts
      src/client/datascience/raw-kernel/enchannelJMPConnection.ts
    and the properties of the transport layer proved (or refuted) on it.

    JavaScript objects live in a store addressed by references, so that
    "a new object" and "the caller's object is untouched" are statements
    about the store.  Code that throws, or an async function whose promise
    rejects, is a computation of the monad [M] that ends in [Thrown].  What
    the zeromq library, the wire codec and the environment do is not in the
    sources: it enters as the variables of the section [Backend]. *)

From Stdlib Require Import ZArith String List Lia.
From stdpp Require Import base option list gmap strings pretty.

Open Scope Z_scope.

(** ** JavaScript values and the object store *)

Module JS.

Definition loc := nat.

(** The values the transport handles: JSON-like data with integer
    numbers (a port, a count), arrays by value, plain objects by
    reference into the store. *)
#[warnings="-register-all"] Inductive value :=
| VUndefined
| VNull
| VBool (b : bool)
| VNum (n : Z)
| VStr (s : string)
| VArr (elems : list value)
| VRef (l : loc).

(** ToBoolean: [!v] is [negb (truthy v)]. *)
Definition truthy (v : value) : bool :=
  match v with
  | VUndefined | VNull => false
  | VBool b => b
  | VNum n => negb (Z.eqb n 0)
  | VStr s => negb (String.eqb s "")
  | VArr _ | VRef _ => true
  end.

(** ToString, as used by template literals and by computed property
    keys.  An array joins its elements with commas, holes for
    undefined and null. *)
Fixpoint to_string (v : value) : string :=
  match v with
  | VUndefined => "undefined"
  | VNull => "null"
  | VBool b => if b then "true" else "false"
  | VNum n => pretty n
  | VStr s => s
  | VArr elems =>
      String.concat ","
        (map (fun e => match e with
                       | VUndefined | VNull => ""
                       | _ => to_string e
                       end) elems)
  | VRef _ => "[object Object]"
  end.

(** A plain object: its own enumerable properties. *)
Abbreviation obj := (gmap string value).

(** The store: cell [l] holds the object [VRef l] points to; a new
    object goes into a new cell at the end. *)
Abbreviation store := (list (gmap string value)).

(** [v.k] for a truthy [v]: only objects of the store carry the
    properties the transport reads. *)
Definition get (h : store) (v : value) (k : string) : value :=
  match v with
  | VRef l => match h !! l with
              | Some o => default VUndefined (o !! k)
              | None => VUndefined
              end
  | _ => VUndefined
  end.

(** The properties of an array or of a string, keyed by index. *)
Definition indexed (elems : list value) : obj :=
  list_to_map (imap (fun i e => (pretty (Z.of_nat i), e)) elems).

Definition chars (s : string) : list value :=
  map (fun c => VStr (String c EmptyString)) (list_ascii_of_string s).

(** Object spread [{...v}]: the own enumerable properties of [v];
    nothing for undefined, null, booleans and numbers. *)
Definition spread (h : store) (v : value) : obj :=
  match v with
  | VRef l => default ∅ (h !! l)
  | VArr elems => indexed elems
  | VStr s => indexed (chars s)
  | _ => ∅
  end.

(** What every object literal inherits from Object.prototype.  All of
    them are truthy (functions, or the prototype object itself). *)
Definition object_prototype : list string :=
  [ "constructor"; "hasOwnProperty"; "isPrototypeOf";
    "propertyIsEnumerable"; "toLocaleString"; "toString"; "valueOf";
    "__proto__"; "__defineGetter__"; "__defineSetter__";
    "__lookupGetter__"; "__lookupSetter__" ].

Definition inherited (k : string) : bool :=
  bool_decide (k ∈ object_prototype).

Inductive Error := mkError (message : string).

Definition dquote : string := String (Ascii.ascii_of_nat 34) EmptyString.

End JS.

Import JS.

(** ** Connection descriptor and endpoint strings *)

Inductive ChannelName := iopub | stdin | shell | control.

Definition channel_str (c : ChannelName) : string :=
  match c with
  | iopub => "iopub"
  | stdin => "stdin"
  | shell => "shell"
  | control => "control"
  end.

Inductive Transport := tcp | ipc.

Definition transport_str (t : Transport) : string :=
  match t with tcp => "tcp" | ipc => "ipc" end.

(** [JupyterConnectionInfo].  The ports are numbers by their type; the
    record keeps them as values because [formConnectionString] tests them
    for truthiness (a port missing from the object reads as undefined). *)
Record JupyterConnectionInfo := {
  version : Z;
  iopub_port : value;
  shell_port : value;
  stdin_port : value;
  control_port : value;
  signature_scheme : string;
  hb_port : value;
  ip : string;
  key : string;
  transport : Transport
}.

Record HeaderFiller := {
  session : string;
  username : string
}.

(** [config[`${channel}_port`]] *)
Definition channel_port (config : JupyterConnectionInfo) (channel : ChannelName) : value :=
  match channel with
  | iopub => iopub_port config
  | stdin => stdin_port config
  | shell => shell_port config
  | control => control_port config
  end.

Definition formConnectionString (config : JupyterConnectionInfo) (channel : ChannelName)
  : Error + string :=
  let portDelimiter := match transport config with tcp => ":" | ipc => "-" end in
  let port := channel_port config channel in
  if negb (truthy port) then
    inl (mkError ("Port not found for channel " +:+ dquote +:+ channel_str channel +:+ dquote))
  else
    inr (transport_str (transport config) +:+ "://" +:+ ip config
         +:+ portDelimiter +:+ to_string port).

(** [getUsername]: the first non-empty of four environment variables,
    else the literal the classic notebook uses. *)
Definition env_or (env : gmap string string) (name : string) (otherwise : string) : string :=
  match env !! name with
  | Some s => if String.eqb s "" then otherwise else s
  | None => otherwise
  end.

Definition getUsername (env : gmap string string) : string :=
  env_or env "LOGNAME" (env_or env "USER" (env_or env "LNAME" (env_or env "USERNAME" "username"))).

(** ** zeromq sockets, the world, and computations that may throw *)

Inductive SocketType := Dealer (routingId : string) | Subscriber.

(** A socket object.  [closes] counts the calls of [close()] on it. *)
Record ZSocket := {
  stype : SocketType;
  endpoint : option string;
  topics : list string;
  closes : nat
}.

(** The capability probed by [(socket as any).send !== undefined]: a
    Dealer has [send], a Subscriber only receives. *)
Definition has_send (z : ZSocket) : bool :=
  match stype z with Dealer _ => true | Subscriber => false end.

Definition bound_to (url : string) (z : ZSocket) : ZSocket :=
  {| stype := stype z; endpoint := Some url; topics := topics z; closes := closes z |}.

Definition subscribed_to (topic : string) (z : ZSocket) : ZSocket :=
  {| stype := stype z; endpoint := endpoint z; topics := topics z ++ [topic]; closes := closes z |}.

Definition closed_once_more (z : ZSocket) : ZSocket :=
  {| stype := stype z; endpoint := endpoint z; topics := topics z; closes := S (closes z) |}.

Abbreviation Frames := (list string).

(** Everything the transport can touch: the object store, the sockets
    ever constructed (a socket is named by its index), the two logs
    ([console.warn] and [traceError]), the frames handed to a successful
    [send], what the merged inbound stream emitted and which subscriber
    saw it, and the number of identifiers drawn from [uuid()]. *)
Record World := mkWorld {
  heap : store;
  zmq : list ZSocket;
  warned : list (string * value);
  traced : list (string * Error * value);
  sent : list (nat * Frames);
  published : list obj;
  delivered : list (nat * obj);
  drawn : nat
}.

Definition with_heap (f : store -> store) (w : World) : World :=
  mkWorld (f (heap w)) (zmq w) (warned w) (traced w) (sent w) (published w) (delivered w) (drawn w).

Definition with_zmq (f : list ZSocket -> list ZSocket) (w : World) : World :=
  mkWorld (heap w) (f (zmq w)) (warned w) (traced w) (sent w) (published w) (delivered w) (drawn w).

Definition with_warned (x : string * value) (w : World) : World :=
  mkWorld (heap w) (zmq w) (warned w ++ [x]) (traced w) (sent w) (published w) (delivered w) (drawn w).

Definition with_traced (x : string * Error * value) (w : World) : World :=
  mkWorld (heap w) (zmq w) (warned w) (traced w ++ [x]) (sent w) (published w) (delivered w) (drawn w).

Definition with_sent (x : nat * Frames) (w : World) : World :=
  mkWorld (heap w) (zmq w) (warned w) (traced w) (sent w ++ [x]) (published w) (delivered w) (drawn w).

Definition with_emission (m : obj) (observers : list nat) (w : World) : World :=
  mkWorld (heap w) (zmq w) (warned w) (traced w) (sent w)
          (published w ++ [m]) (delivered w ++ map (fun o => (o, m)) observers) (drawn w).

Definition with_drawn (w : World) : World :=
  mkWorld (heap w) (zmq w) (warned w) (traced w) (sent w) (published w) (delivered w) (S (drawn w)).

Inductive outcome (A : Type) :=
| Returned (a : A)
| Thrown (e : Error).

Arguments Returned {A} a.
Arguments Thrown {A} e.

(** A computation runs in a world and either returns or throws; an async
    function is one whose [Thrown] is the rejection of its promise. *)
Definition M (A : Type) : Type := World -> outcome A * World.

#[global] Instance M_ret : MRet M := fun A a w => (Returned a, w).

#[global] Instance M_bind : MBind M := fun A B k m w =>
  match m w with
  | (Returned a, w') => k a w'
  | (Thrown e, w') => (Thrown e, w')
  end.

Definition throw {A} (e : Error) : M A := fun w => (Thrown e, w).

Definition try_catch {A} (body : M A) (handler : Error -> M A) : M A := fun w =>
  match body w with
  | (Returned a, w') => (Returned a, w')
  | (Thrown e, w') => handler e w'
  end.

Definition of_result {A} (r : Error + A) : M A :=
  match r with inl e => throw e | inr a => mret a end.

Definition gets {A} (f : World -> A) : M A := fun w => (Returned (f w), w).

Definition modify (f : World -> World) : M unit := fun w => (Returned tt, f w).

(** [Promise.all] on a tuple of four promises.  The four async functions
    have all been started and none is cancelled when another rejects, so
    each runs to its end; the result rejects as soon as one of them does,
    and the world returned is the one in which all four have settled.
    When several reject, which error wins depends on the order in which
    they settle: the model takes the first in tuple order, and no
    statement below depends on which error it is. *)
Definition Promise_all4 {A B C D} (a : M A) (b : M B) (c : M C) (d : M D)
  : M (A * B * C * D) := fun w0 =>
  let '(ra, w1) := a w0 in
  let '(rb, w2) := b w1 in
  let '(rc, w3) := c w2 in
  let '(rd, w4) := d w3 in
  match ra, rb, rc, rd with
  | Returned x, Returned y, Returned z, Returned t => (Returned (x, y, z, t), w4)
  | Thrown e, _, _, _ => (Thrown e, w4)
  | _, Thrown e, _, _ => (Thrown e, w4)
  | _, _, Thrown e, _ => (Thrown e, w4)
  | _, _, _, Thrown e => (Thrown e, w4)
  end.

(** [sockets[k]] on the socket table, an object literal: an own property
    is a socket; failing that the lookup walks to Object.prototype, whose
    members are truthy and have no [send]; else it is undefined. *)
Inductive Resolved :=
| Own (s : nat)
| Inherited
| Undefined.

Definition lookup_socket (sockets : gmap string nat) (k : string) : Resolved :=
  match sockets !! k with
  | Some s => Own s
  | None => if inherited k then Inherited else Undefined
  end.

(** The duplex subject returned by [createMainChannelFromSockets], with
    the state rxjs keeps for it: the closure's [sockets] and [header],
    whether the [outgoingMessages] subscriber has stopped, whether the
    subject was unsubscribed, whether the merged inbound stream has
    failed, and the handlers subscribed to it. *)
Record Channels := mkChannels {
  sockets : gmap string nat;
  header : HeaderFiller;
  outgoing_stopped : bool;
  subject_closed : bool;
  incoming_error : option Error;
  observers : list nat
}.

Record EnchannelJMPConnection := {
  mainChannel : option Channels
}.

(** ** Concrete collaborators and inputs

    Instances of what the section [Backend] abstracts over, and the data
    the closed statements at the end of the file are evaluated on. *)

Module Scenario.

Definition bind_ok : string -> option Error := fun _ => None.

Definition bind_refusing (taken : string) : string -> option Error := fun url =>
  if String.eqb url taken then Some (mkError "Address already in use") else None.

Definition send_ok : ZSocket -> Frames -> option Error := fun _ _ => None.

Definition send_failing : ZSocket -> Frames -> option Error := fun _ _ =>
  Some (mkError "Socket temporarily unavailable").

(** A codec whose [encode] writes the delimiter and the content, and
    whose [decode] takes header, parent header, metadata and content
    from the frames at the indices 0 to 3, throws when one is missing,
    and returns an object with the six fields of a RawJupyterMessage. *)
Definition frames_encode : store -> value -> Error + Frames := fun h v =>
  inr ["<IDS|MSG>"; to_string (get h v "content")].

Definition encode_failing : store -> value -> Error + Frames := fun _ _ =>
  inl (mkError "Converting circular structure to JSON").

Definition frames_decode
  : store -> obj -> Error + obj := fun _ msg =>
  match msg !! "0", msg !! "1", msg !! "2", msg !! "3" with
  | Some hd, Some ph, Some md, Some ct =>
      inr (<["header" := hd]> (<["parent_header" := ph]> (<["metadata" := md]>
            (<["content" := ct]> (<["buffers" := VArr []]> (<["idents" := VArr []]> ∅))))))
  | _, _, _, _ => inl (mkError "Not enough elements in the message")
  end.

Definition uuid_seq : nat -> string := fun n => "uuid-" +:+ pretty (Z.of_nat n).

Definition env_user : gmap string string := <["USER" := "jovyan"]> ∅.

Definition config_tcp : JupyterConnectionInfo :=
  {| version := 5; iopub_port := VNum 5004; shell_port := VNum 5001;
     stdin_port := VNum 5003; control_port := VNum 5002;
     signature_scheme := "hmac-sha256"; hb_port := VNum 5005;
     ip := "127.0.0.1"; key := "secret"; transport := tcp |}.

Definition config_ipc : JupyterConnectionInfo :=
  {| version := 5; iopub_port := VNum 4; shell_port := VNum 1;
     stdin_port := VNum 3; control_port := VNum 2;
     signature_scheme := "hmac-sha256"; hb_port := VNum 5;
     ip := "/tmp/kernel"; key := "secret"; transport := ipc |}.

(** The same descriptor with the iopub port set to zero. *)
Definition config_no_iopub : JupyterConnectionInfo :=
  {| version := 5; iopub_port := VNum 0; shell_port := VNum 5001;
     stdin_port := VNum 5003; control_port := VNum 5002;
     signature_scheme := "hmac-sha256"; hb_port := VNum 5005;
     ip := "127.0.0.1"; key := "secret"; transport := tcp |}.

(** The caller's store: cell 0 is a message header that already names a
    session and a user, cell 1 a content object, and the cells 2 to 5
    are messages for the channels shell, iopub, "bogus" and
    "constructor". *)
Definition caller_header : obj :=
  <["msg_id" := VStr "m-1"]> (<["msg_type" := VStr "execute_request"]>
    (<["session" := VStr "callers-session"]> (<["username" := VStr "caller"]> ∅))).

Definition caller_content : obj := <["code" := VStr "1+1"]> ∅.

Definition caller_message (channel : value) : obj :=
  <["channel" := channel]> (<["header" := VRef 0%nat]> (<["parent_header" := VNull]>
    (<["content" := VRef 1%nat]> (<["metadata" := VNull]>
      (<["idents" := VArr [VStr "peer"]]> ∅))))).

Definition caller_heap : store :=
  [ caller_header; caller_content;
    caller_message (VStr "shell"); caller_message (VStr "iopub");
    caller_message (VStr "bogus"); caller_message (VStr "constructor") ].

Definition world0 : World := mkWorld caller_heap [] [] [] [] [] [] 0%nat.

Definition filler : HeaderFiller := {| session := "s-42"; username := "jovyan" |}.

(** A raw event the codec can decode, what it decodes to, and an
    event it cannot decode. *)
Definition good_body : value :=
  VArr [VStr "{header}"; VStr "{parent}"; VStr "{metadata}"; VStr "{content}"].

Definition decoded_good : obj :=
  <["header" := VStr "{header}"]> (<["parent_header" := VStr "{parent}"]>
    (<["metadata" := VStr "{metadata}"]> (<["content" := VStr "{content}"]>
      (<["buffers" := VArr []]> (<["idents" := VArr []]> ∅))))).

Definition bad_body : value := VArr [VStr "garbage"].

(** A second event the codec can decode, and what it decodes to. *)
Definition other_body : value :=
  VArr [VStr "{header'}"; VStr "{parent'}"; VStr "{metadata'}"; VStr "{content'}"].

Definition decoded_other : obj :=
  <["header" := VStr "{header'}"]> (<["parent_header" := VStr "{parent'}"]>
    (<["metadata" := VStr "{metadata'}"]> (<["content" := VStr "{content'}"]>
      (<["buffers" := VArr []]> (<["idents" := VArr []]> ∅))))).

(** The world once [connect] has run on [config_tcp] with the session
    "sess": four bound sockets, one identifier drawn for the header.
    [table] is the socket table, [connected] the subject, and [duplex]
    the subject with the handler 7 subscribed. *)
Definition four_sockets : list ZSocket :=
  [ {| stype := Dealer "sess"; endpoint := Some "tcp://127.0.0.1:5001";
       topics := []; closes := 0%nat |};
    {| stype := Dealer "sess"; endpoint := Some "tcp://127.0.0.1:5002";
       topics := []; closes := 0%nat |};
    {| stype := Dealer "sess"; endpoint := Some "tcp://127.0.0.1:5003";
       topics := []; closes := 0%nat |};
    {| stype := Subscriber; endpoint := Some "tcp://127.0.0.1:5004";
       topics := [""]; closes := 0%nat |} ].

Definition world1 : World := mkWorld caller_heap four_sockets [] [] [] [] [] 1%nat.

Definition table : gmap string nat :=
  <["shell" := 0%nat]> (<["control" := 1%nat]> (<["stdin" := 2%nat]>
    (<["iopub" := 3%nat]> ∅))).

Definition connected : Channels :=
  mkChannels table {| session := "uuid-0"; username := "jovyan" |} false false None [].

Definition duplex : Channels :=
  mkChannels table {| session := "uuid-0"; username := "jovyan" |} false false None [7%nat].

End Scenario.

(** ** The program *)

Section Backend.

(** What the sources call but do not define.  [require('zeromq')] is
    taken to succeed.  The codec reads the store and does not write
    to it. *)

(** [socket.bind(url)]: [None] when the socket got bound. *)
Variable zmq_bind : string -> option Error.
(** [socket.send(frames)] on a Dealer: [None] when the frames went out. *)
Variable zmq_send : ZSocket -> Frames -> option Error.
(** [wireProtocol.encode] and [wireProtocol.decode]; either may throw. *)
Variable encode : store -> value -> Error + Frames.
Variable decode : store -> obj -> Error + obj.
(** [uuid()]: the n-th identifier drawn. *)
Variable uuid : nat -> string.
(** [process.env] *)
Variable env : gmap string string.

Definition new_socket (t : SocketType) : M nat := fun w =>
  (Returned (length (zmq w)),
   with_zmq (fun zs => zs ++ [{| stype := t; endpoint := None; topics := []; closes := 0%nat |}]) w).

Definition socket_bind (socket : nat) (url : string) : M unit :=
  match zmq_bind url with
  | Some e => throw e
  | None => modify (with_zmq (alter (bound_to url) socket))
  end.

Definition socket_subscribe (socket : nat) (topic : string) : M unit :=
  modify (with_zmq (alter (subscribed_to topic) socket)).

Definition socket_close (socket : nat) : M unit :=
  modify (with_zmq (alter closed_once_more socket)).

Definition socket_send (socket : nat) (z : ZSocket) (frames : Frames) : M unit :=
  match zmq_send z frames with
  | Some e => throw e
  | None => modify (with_sent (socket, frames))
  end.

Definition new_object (o : obj) : M loc := fun w =>
  (Returned (length (heap w)), with_heap (fun h => h ++ [o]) w).

Definition draw_uuid : M string := fun w => (Returned (uuid (drawn w)), with_drawn w).

Definition console_warn (text : string) (message : value) : M unit :=
  modify (with_warned (text, message)).

Definition traceError (text : string) (err : Error) (message : value) : M unit :=
  modify (with_traced (text, err, message)).

Definition createSubscriber (channel : ChannelName) (config : JupyterConnectionInfo) : M nat :=
  socket ← new_socket Subscriber;
  url ← of_result (formConnectionString config channel);
  _ ← socket_bind socket url;
  mret socket.

Definition createDealer (channel : ChannelName) (identity : string)
    (config : JupyterConnectionInfo) : M nat :=
  socket ← new_socket (Dealer identity);
  url ← of_result (formConnectionString config channel);
  _ ← socket_bind socket url;
  mret socket.

(** A parameter with a default: [None] is an omitted argument. *)
Definition or_default {A} (given : option A) (dflt : M A) : M A :=
  match given with Some a => mret a | None => dflt end.

Definition createSockets (config : JupyterConnectionInfo)
    (subscription : option string) (identity : option string)
  : M (gmap string nat) :=
  subscription ← or_default subscription (mret "");
  identity ← or_default identity draw_uuid;
  '(shell_s, control_s, stdin_s, iopub_s) ←
    Promise_all4 (createDealer shell identity config)
                 (createDealer control identity config)
                 (createDealer stdin identity config)
                 (createSubscriber iopub config);
  _ ← socket_subscribe iopub_s subscription;
  mret (<["shell" := shell_s]> (<["control" := control_s]>
         (<["stdin" := stdin_s]> (<["iopub" := iopub_s]> ∅)))).

Definition default_header : M HeaderFiller :=
  s ← draw_uuid;
  mret {| session := s; username := getUsername env |}.

(** [{ ...message.header, ...header }] *)
Definition fold_in_header (message_header : obj) (hdr : HeaderFiller) : obj :=
  <["username" := VStr (username hdr)]>
    (<["session" := VStr (session hdr)]> message_header).

(** The object literal [jMessage]; [header_ref] is the folded header. *)
Definition raw_message (h : store) (message : value) (header_ref : loc) : obj :=
  <["header" := VRef header_ref]>
    (<["parent_header" := get h message "parent_header"]>
      (<["content" := get h message "content"]>
        (<["metadata" := get h message "metadata"]>
          (<["buffers" := get h message "buffers"]>
            (<["idents" := VArr []]> ∅))))).

(** The [try] block of the [next] handler. *)
Definition try_send (socket : Resolved) (hdr : HeaderFiller) (message : value) : M unit :=
  h ← gets heap;
  header_ref ← new_object (fold_in_header (spread h (get h message "header")) hdr);
  jMessage ← new_object (raw_message h message header_ref);
  match socket with
  | Own s =>
      zs ← gets zmq;
      match zs !! s with
      | Some z =>
          if has_send z then
            h' ← gets heap;
            frames ← of_result (encode h' (VRef jMessage));
            socket_send s z frames
          else mret tt
      | None => mret tt
      end
  | _ => mret tt
  end.

(** The [next] handler of [outgoingMessages], an async function. *)
Definition outgoingMessages_next (socks : gmap string nat) (hdr : HeaderFiller)
    (message : value) : M unit :=
  h ← gets heap;
  if negb (truthy message) || negb (truthy (get h message "channel")) then
    console_warn "message sent without a channel" message
  else
    match lookup_socket socks (to_string (get h message "channel")) with
    | Undefined => console_warn "channel not understood for message" message
    | socket =>
        try_catch (try_send socket hdr message)
                  (fun err => traceError "Error sending message" err message)
    end.

(** The [complete] handler of [outgoingMessages]:
    [Object.keys(sockets).forEach(name => ... socket.close() ...)].
    Dealers and Subscribers both have [close], so the test
    [if (socket.close)] passes for every entry. *)
Definition outgoingMessages_complete (socks : gmap string nat) : M unit :=
  foldr (fun entry rest => _ ← socket_close entry.2; rest) (mret tt) (map_to_list socks).

(** The projection mapped over the 'message' events of the socket
    registered under [name]. *)
Definition incomingMessages_map (name : string) (body : value) : M obj :=
  h ← gets heap;
  let msg := <["channel" := VStr name]> (spread h body) in
  let msg := delete "idents" msg in
  of_result (decode h msg).

(** *** rxjs: the subscriber, the subject and the merged stream

    [Subscriber.create(next, error, complete)]: [next] calls the handler
    unless the subscriber has stopped (the promise the async handler
    returns is dropped); [complete] stops it and calls the handler,
    once. *)
Definition Subscriber_next (c : Channels) (message : value) : M unit := fun w =>
  if outgoing_stopped c then (Returned tt, w)
  else (Returned tt, snd (outgoingMessages_next (sockets c) (header c) message w)).

Definition Subscriber_complete (c : Channels) : M Channels :=
  if outgoing_stopped c then mret c
  else
    _ ← outgoingMessages_complete (sockets c);
    mret (mkChannels (sockets c) (header c) true (subject_closed c)
                     (incoming_error c) (observers c)).

(** [Subject.create(destination, source)] is an AnonymousSubject:
    [next] and [complete] go to the destination, [subscribe] subscribes
    the source, and [unsubscribe], which it inherits from Subject, only
    flags the subject itself as closed. *)
Definition Subject_next (c : Channels) (message : value) : M unit :=
  Subscriber_next c message.

Definition Subject_complete (c : Channels) : M Channels :=
  Subscriber_complete c.

Definition Subject_unsubscribe (c : Channels) : Channels :=
  mkChannels (sockets c) (header c) (outgoing_stopped c) true
             (incoming_error c) (observers c).

Definition Subject_subscribe (c : Channels) (handler : nat) : Channels :=
  match incoming_error c with
  | Some _ => c
  | None => mkChannels (sockets c) (header c) (outgoing_stopped c) (subject_closed c)
                       None (observers c ++ [handler])
  end.

(** The socket registered under [name] emits a 'message' event.
    [merge], [publish] and [refCount] listen only while somebody is
    subscribed; the mapped value goes out once and reaches every
    subscriber; an error thrown by the projection is an error
    notification, which ends the merged stream for good. *)
Definition socket_message (c : Channels) (name : string) (body : value) (w : World)
  : Channels * World :=
  match sockets c !! name, incoming_error c, observers c with
  | Some _, None, _ :: _ =>
      match incomingMessages_map name body w with
      | (Returned m, w') => (c, with_emission m (observers c) w')
      | (Thrown e, w') =>
          (mkChannels (sockets c) (header c) (outgoing_stopped c) (subject_closed c)
                      (Some e) [], w')
      end
  | _, _, _ => (c, w)
  end.

(** *** The exported constructors and the connection class *)

Definition createMainChannelFromSockets (socks : gmap string nat)
    (hdr : option HeaderFiller) : M Channels :=
  hdr ← or_default hdr default_header;
  mret (mkChannels socks hdr false false None []).

Definition createMainChannel (config : JupyterConnectionInfo)
    (subscription : option string) (identity : option string)
    (hdr : option HeaderFiller) : M Channels :=
  subscription ← or_default subscription (mret "");
  identity ← or_default identity draw_uuid;
  hdr ← or_default hdr default_header;
  socks ← createSockets config (Some subscription) (Some identity);
  createMainChannelFromSockets socks (Some hdr).

Definition connect (this : EnchannelJMPConnection) (connectInfo : JupyterConnectionInfo)
    (sessionID : string) : M EnchannelJMPConnection :=
  c ← createMainChannel connectInfo None (Some sessionID) None;
  mret {| mainChannel := Some c |}.

Definition sendMessage (this : EnchannelJMPConnection) (message : value) : M unit :=
  match mainChannel this with
  | Some c => Subject_next c message
  | None => mret tt
  end.

Definition subscribe (this : EnchannelJMPConnection) (handlerFunc : nat)
  : EnchannelJMPConnection :=
  match mainChannel this with
  | Some c => {| mainChannel := Some (Subject_subscribe c handlerFunc) |}
  | None => this
  end.

Definition dispose (this : EnchannelJMPConnection) : M EnchannelJMPConnection :=
  match mainChannel this with
  | Some c => mret {| mainChannel := Some (Subject_unsubscribe c) |}
  | None => mret this
  end.

(** *** Vocabulary of the statements *)

(** The message names a channel whose socket [s] is in the table, is
    live in the world as [z], and can send. *)
Definition routes_to (socks : gmap string nat) (w : World) (message : value)
    (s : nat) (z : ZSocket) : Prop :=
  truthy message = true /\
  truthy (get (heap w) message "channel") = true /\
  socks !! to_string (get (heap w) message "channel") = Some s /\
  zmq w !! s = Some z /\
  has_send z = true.

(** The message has no usable channel: it is falsy, or its [channel]
    is falsy (missing or empty), or the channel names no socket of the
    table. *)
Definition unroutable (socks : gmap string nat) (w : World) (message : value) : Prop :=
  truthy message = false \/
  truthy (get (heap w) message "channel") = false \/
  socks !! to_string (get (heap w) message "channel") = None.

(** The store once the [try] block has built the folded header and
    [jMessage], and the reference to [jMessage] handed to [encode]. *)
Definition wire_store (hdr : HeaderFiller) (message : value) (w : World) : store :=
  heap w ++ [ fold_in_header (spread (heap w) (get (heap w) message "header")) hdr;
              raw_message (heap w) message (length (heap w)) ].

Definition wire_ref (w : World) : value := VRef (S (length (heap w))).

(** No [close()] was called between [w] and [w']: a socket that existed
    keeps its count, a new one has none. *)
Definition nothing_closed (w w' : World) : Prop :=
  forall s z', zmq w' !! s = Some z' ->
    closes z' = match zmq w !! s with Some z => closes z | None => 0%nat end.

(** Every socket constructed between [w] and [w'] has been closed. *)
Definition created_are_closed (w w' : World) : Prop :=
  forall s z', (length (zmq w) <= s)%nat -> zmq w' !! s = Some z' -> (1 <= closes z')%nat.

(** One of the four creations of the batch cannot succeed: the port is
    missing or [bind] refuses the endpoint. *)
Definition creation_fails (config : JupyterConnectionInfo) (channel : ChannelName) : Prop :=
  match formConnectionString config channel with
  | inl _ => True
  | inr url => zmq_bind url <> None
  end.

(** The event as the projection hands it to [decode]. *)
Definition stamped (h : store) (name : string) (body : value) : obj :=
  delete "idents" (<["channel" := VStr name]> (spread h body)).

(** The inbound stream of [c] is listening on the socket named [name]. *)
Definition listening (c : Channels) (name : string) : Prop :=
  is_Some (sockets c !! name) /\ incoming_error c = None /\ observers c <> [].

(** A socket object that has never been closed. *)
Definition unclosed (t : SocketType) (url : option string) (filters : list string) : ZSocket :=
  {| stype := t; endpoint := url; topics := filters; closes := 0%nat |}.

(** The subject once its inbound stream has ended with the error [e]. *)
Definition failed_with (c : Channels) (e : Error) : Channels :=
  mkChannels (sockets c) (header c) (outgoing_stopped c) (subject_closed c) (Some e) [].

(** 'message' events arriving one after the other, each given by the
    name of its socket and its body. *)
Fixpoint socket_messages (c : Channels) (events : list (string * value)) (w : World)
  : Channels * World :=
  match events with
  | [] => (c, w)
  | (name, body) :: later =>
      let '(c', w') := socket_message c name body w in
      socket_messages c' later w'
  end.

(** How many names of the table name the socket [s]. *)
Definition names_of (socks : gmap string nat) (s : nat) : nat :=
  length (filter (fun entry => entry.2 = s) (map_to_list socks)).

(** *** Proof steps

    [creation_cases] runs the four creations of [createSockets] and
    splits on what the formatter and [bind] answer for each channel; it
    takes the two lemmas that describe one creation. *)

Ltac creation_case dealer_run subscriber_run config channel :=
  rewrite ?dealer_run, ?subscriber_run; cbv zeta;
  destruct (formConnectionString config channel) as [? | ?] eqn:?;
  [| match goal with
     | |- context [zmq_bind ?url] => destruct (zmq_bind url) eqn:?
     end].

Ltac creation_cases dealer_run subscriber_run config :=
  unfold createSockets, or_default, draw_uuid, Promise_all4, socket_subscribe, modify,
         mbind, M_bind, mret, M_ret;
  repeat match goal with
         | |- context [match ?o with Some _ => _ | None => _ end _] =>
             match type of o with option string => destruct o end
         end;
  creation_case dealer_run subscriber_run config shell;
  creation_case dealer_run subscriber_run config control;
  creation_case dealer_run subscriber_run config stdin;
  creation_case dealer_run subscriber_run config iopub.

(** ** Properties *)

(** *** The endpoint formatter *)

(** C8.  For every descriptor and channel: when the channel's port is
    truthy the formatter returns transport, "://", ip, the delimiter and
    the port, the delimiter being ":" for tcp and "-" for ipc; when the
    port is falsy (zero and undefined among others) it throws. *)
Theorem formConnectionString_spec (config : JupyterConnectionInfo) (channel : ChannelName) :
  let port := channel_port config channel in
  (truthy port = true -> transport config = tcp ->
     formConnectionString config channel
     = inr ("tcp://" +:+ ip config +:+ ":" +:+ to_string port)) /\
  (truthy port = true -> transport config = ipc ->
     formConnectionString config channel
     = inr ("ipc://" +:+ ip config +:+ "-" +:+ to_string port)) /\
  (truthy port = false ->
     formConnectionString config channel
     = inl (mkError ("Port not found for channel " +:+ dquote
                     +:+ channel_str channel +:+ dquote))) /\
  (port = VNum 0 \/ port = VUndefined \/ port = VNull -> truthy port = false).
Proof.
  intros port. unfold formConnectionString. fold port.
  repeat split.
  - intros Ht Htr. rewrite Ht, Htr. reflexivity.
  - intros Ht Htr. rewrite Ht, Htr. reflexivity.
  - intros Hf. rewrite Hf. reflexivity.
  - intros [-> | [-> | ->]]; reflexivity.
Qed.

(** *** The outbound path *)

Lemma zmq_with_heap f w : zmq (with_heap f w) = zmq w.
Proof. reflexivity. Qed.

Lemma heap_with_heap f w : heap (with_heap f w) = f (heap w).
Proof. reflexivity. Qed.

Lemma with_heap_twice (a b : obj) (w : World) :
  with_heap (fun h => h ++ [b]) (with_heap (fun h => h ++ [a]) w)
  = with_heap (fun _ => heap w ++ [a; b]) w.
Proof. unfold with_heap; simpl. rewrite <- app_assoc. reflexivity. Qed.

(** The [try] block writes to the store by allocation only: the folded
    header, then [jMessage]. *)
Lemma try_send_store socket hdr message w :
  heap (try_send socket hdr message w).2 = wire_store hdr message w.
Proof.
  unfold try_send, wire_store, mbind, M_bind, gets, new_object, mret, M_ret.
  rewrite heap_with_heap, with_heap_twice.
  destruct socket as [s | |]; try reflexivity.
  rewrite zmq_with_heap.
  destruct (zmq w !! s) as [z |]; try reflexivity.
  destruct (has_send z); try reflexivity.
  rewrite heap_with_heap. unfold of_result, throw, socket_send, modify, mret, M_ret.
  destruct (encode _ _) as [e | frames]; try reflexivity.
  destruct (zmq_send z frames); reflexivity.
Qed.

(** Whatever the handler does, the store it leaves extends the store it
    found. *)
Lemma guarded_send_store socket hdr message w :
  heap (try_catch (try_send socket hdr message)
                  (fun err => traceError "Error sending message" err message) w).2
  = wire_store hdr message w.
Proof.
  unfold try_catch.
  pose proof (try_send_store socket hdr message w) as Hs.
  destruct (try_send socket hdr message w) as [[[] | e] w']; exact Hs.
Qed.

Lemma outgoingMessages_next_store socks hdr message w :
  exists cells, heap (outgoingMessages_next socks hdr message w).2 = heap w ++ cells.
Proof.
  unfold outgoingMessages_next, mbind, M_bind, gets.
  destruct (negb (truthy message) || negb (truthy (get (heap w) message "channel"))).
  - exists []. simpl. rewrite app_nil_r. reflexivity.
  - destruct (lookup_socket socks _) as [s | |] eqn:Hsock.
    + rewrite guarded_send_store. eexists; reflexivity.
    + rewrite guarded_send_store. eexists; reflexivity.
    + exists []. simpl. rewrite app_nil_r. reflexivity.
Qed.

(** C4.  The header put on the wire is a merge of the message's
    header with the filler.  It is a new object: it goes into a cell
    that did not exist before the send, and the wire message refers to
    that cell.  Its [session] and [username] are the filler's, whatever
    the message header held under those keys.  When the message's
    [header] is an object of the store, every other field of the new
    header is the field of that object (present with the same value,
    or absent in both), and the object itself is afterwards what it
    was; a message without a header gets a header with the two filler
    fields only.  No cell that existed is changed. *)
Theorem header_enrichment_is_a_pure_merge
    (socket : Resolved) (hdr : HeaderFiller) (message : value) (w : World) :
  let w' := (try_send socket hdr message w).2 in
  exists enriched jMessage : obj,
    heap w !! length (heap w) = None /\
    heap w' !! length (heap w) = Some enriched /\
    heap w' !! S (length (heap w)) = Some jMessage /\
    jMessage !! "header" = Some (VRef (length (heap w))) /\
    enriched !! "session" = Some (VStr (session hdr)) /\
    enriched !! "username" = Some (VStr (username hdr)) /\
    (forall l message_header,
       get (heap w) message "header" = VRef l ->
       heap w !! l = Some message_header ->
       (forall k, k <> "session" -> k <> "username" ->
                  enriched !! k = message_header !! k) /\
       heap w' !! l = Some message_header) /\
    (get (heap w) message "header" = VUndefined \/ get (heap w) message "header" = VNull ->
     forall k, k <> "session" -> k <> "username" -> enriched !! k = None) /\
    (forall k, k <> "session" -> k <> "username" ->
               enriched !! k = spread (heap w) (get (heap w) message "header") !! k) /\
    (forall l o, heap w !! l = Some o -> heap w' !! l = Some o).
Proof.
  intros w'. subst w'.
  rewrite try_send_store. unfold wire_store.
  set (message_header := spread (heap w) (get (heap w) message "header")).
  exists (fold_in_header message_header hdr),
         (raw_message (heap w) message (length (heap w))).
  assert (Hothers : forall k, k <> "session" -> k <> "username" ->
                              fold_in_header message_header hdr !! k = message_header !! k).
  { intros k Hs Hu. unfold fold_in_header.
    rewrite !lookup_insert_ne by congruence. reflexivity. }
  split; [apply lookup_ge_None_2; lia |].
  split; [rewrite lookup_app_r by lia; rewrite Nat.sub_diag; reflexivity |].
  split; [rewrite lookup_app_r by lia;
          replace (S (length (heap w)) - length (heap w))%nat with 1%nat by lia;
          reflexivity |].
  split; [unfold raw_message; apply lookup_insert_eq |].
  split; [unfold fold_in_header; rewrite lookup_insert_ne by discriminate;
          apply lookup_insert_eq |].
  split; [unfold fold_in_header; apply lookup_insert_eq |].
  split; [| split; [| split]].
  - intros l object Hheader Hcell. split.
    + intros k Hs Hu. rewrite (Hothers k Hs Hu).
      subst message_header. rewrite Hheader. simpl. rewrite Hcell. reflexivity.
    + apply lookup_app_l_Some. exact Hcell.
  - intros Hnone k Hs Hu. rewrite (Hothers k Hs Hu).
    subst message_header. destruct Hnone as [-> | ->]; apply lookup_empty.
  - exact Hothers.
  - intros l o Hl. apply lookup_app_l_Some. exact Hl.
Qed.

(** C10.  A push never writes to an object that existed: the store
    after it is the store before it followed by new cells, so the
    caller's message and everything it refers to are as they were.
    The wire message is one of the new cells, its header is the other,
    and its [idents] is the empty list whatever the message carried. *)
Theorem push_does_not_mutate_the_message (c : Channels) (message : value) (w : World) :
  let w' := (Subject_next c message w).2 in
  (exists cells, heap w' = heap w ++ cells) /\
  (forall l o, heap w !! l = Some o -> heap w' !! l = Some o) /\
  (outgoing_stopped c = false ->
   truthy message = true ->
   truthy (get (heap w) message "channel") = true ->
   lookup_socket (sockets c) (to_string (get (heap w) message "channel")) <> Undefined ->
   exists jMessage : obj,
     heap w' = heap w ++ [fold_in_header (spread (heap w) (get (heap w) message "header"))
                                         (header c); jMessage] /\
     jMessage !! "header" = Some (VRef (length (heap w))) /\
     jMessage !! "idents" = Some (VArr [])).
Proof.
  intros w'. subst w'.
  assert (Hext : exists cells, heap (Subject_next c message w).2 = heap w ++ cells).
  { unfold Subject_next, Subscriber_next.
    destruct (outgoing_stopped c); simpl.
    - exists []. rewrite app_nil_r. reflexivity.
    - apply outgoingMessages_next_store. }
  split; [exact Hext |].
  split.
  - intros l o Hl. destruct Hext as [cells ->]. apply lookup_app_l_Some. exact Hl.
  - intros Hlive Hm Hc Hsock.
    unfold Subject_next, Subscriber_next. rewrite Hlive. simpl.
    unfold outgoingMessages_next, mbind, M_bind, gets. rewrite Hm, Hc. simpl.
    destruct (lookup_socket (sockets c) _) as [s | |]; [| | congruence];
      rewrite guarded_send_store; unfold wire_store;
      (eexists; split; [reflexivity |]); unfold raw_message;
      (split; [apply lookup_insert_eq
              | rewrite !lookup_insert_ne by discriminate; apply lookup_insert_eq]).
Qed.

(** *** Creating the sockets *)

Lemma alter_last {A} (f : A -> A) (l : list A) (x : A) :
  alter f (length l) (l ++ [x]) = l ++ [f x].
Proof.
  rewrite <- (Nat.add_0_r (length l)) at 1. rewrite alter_app_r. reflexivity.
Qed.

(** What one creation does: the socket object always comes to exist;
    it is bound, and returned, when the port is there and [bind]
    accepts the endpoint. *)
Lemma create_run (t : SocketType) (channel : ChannelName) (config : JupyterConnectionInfo)
    (w : World) :
  (socket ← new_socket t;
   url ← of_result (formConnectionString config channel);
   _ ← socket_bind socket url;
   mret socket) w
  = let fresh := {| stype := t; endpoint := None; topics := []; closes := 0%nat |} in
    match formConnectionString config channel with
    | inl e => (Thrown e, with_zmq (fun zs => zs ++ [fresh]) w)
    | inr url =>
        match zmq_bind url with
        | Some e => (Thrown e, with_zmq (fun zs => zs ++ [fresh]) w)
        | None => (Returned (length (zmq w)), with_zmq (fun zs => zs ++ [bound_to url fresh]) w)
        end
    end.
Proof.
  unfold mbind, M_bind, new_socket, of_result, socket_bind, throw, mret, M_ret, modify.
  destruct (formConnectionString config channel) as [e | url]; simpl; [reflexivity |].
  destruct (zmq_bind url) as [e |]; simpl; [reflexivity |].
  unfold with_zmq; simpl. rewrite alter_last. reflexivity.
Qed.

Lemma createDealer_run channel identity config w :
  createDealer channel identity config w
  = let fresh := {| stype := Dealer identity; endpoint := None; topics := []; closes := 0%nat |} in
    match formConnectionString config channel with
    | inl e => (Thrown e, with_zmq (fun zs => zs ++ [fresh]) w)
    | inr url =>
        match zmq_bind url with
        | Some e => (Thrown e, with_zmq (fun zs => zs ++ [fresh]) w)
        | None => (Returned (length (zmq w)), with_zmq (fun zs => zs ++ [bound_to url fresh]) w)
        end
    end.
Proof. apply create_run. Qed.

Lemma createSubscriber_run channel config w :
  createSubscriber channel config w
  = let fresh := {| stype := Subscriber; endpoint := None; topics := []; closes := 0%nat |} in
    match formConnectionString config channel with
    | inl e => (Thrown e, with_zmq (fun zs => zs ++ [fresh]) w)
    | inr url =>
        match zmq_bind url with
        | Some e => (Thrown e, with_zmq (fun zs => zs ++ [fresh]) w)
        | None => (Returned (length (zmq w)), with_zmq (fun zs => zs ++ [bound_to url fresh]) w)
        end
    end.
Proof. apply create_run. Qed.

Lemma nothing_closed_by_appending (w w' : World) (new : list ZSocket) :
  zmq w' = zmq w ++ new ->
  Forall (fun z => closes z = 0%nat) new ->
  nothing_closed w w'.
Proof.
  intros Hz Hnew s z' Hs. rewrite Hz in Hs.
  apply lookup_app_Some in Hs as [Hs | [Hge Hs]].
  - rewrite Hs. reflexivity.
  - rewrite lookup_ge_None_2 by exact Hge.
    rewrite Forall_forall in Hnew. apply Hnew.
    eapply list_elem_of_lookup_2. exact Hs.
Qed.

(** C1, as the code has it.  When one of the four creations of the
    batch fails, [createSockets] fails as a whole and returns no socket
    table; all four socket objects have been constructed by then, and
    [createSockets] closes none of them. *)
Theorem createSockets_failure_closes_nothing
    (config : JupyterConnectionInfo) (subscription identity : option string) (w : World) :
  (exists channel, creation_fails config channel) ->
  exists e w',
    createSockets config subscription identity w = (Thrown e, w') /\
    length (zmq w') = (length (zmq w) + 4)%nat /\
    nothing_closed w w'.
Proof.
  intros [channel Hfails]. unfold creation_fails in Hfails.
  creation_cases createDealer_run createSubscriber_run config.
  all: try (exfalso; destruct channel;
            repeat match goal with
                   | H : formConnectionString _ _ = _ |- _ => rewrite H in Hfails; clear H
                   end; congruence).
  all: eexists; eexists; split; [reflexivity |]; simpl.
  all: split; [rewrite !length_app; simpl; lia |].
  all: eapply nothing_closed_by_appending;
    [simpl; rewrite <- !app_assoc; simpl; reflexivity | repeat constructor].
Qed.

(** The [try] block when the resolved value has no [send]: the wire
    message is built and nothing else happens. *)
Lemma try_send_without_send socket hdr message w :
  (forall s z, socket = Own s -> zmq w !! s = Some z -> has_send z = false) ->
  try_send socket hdr message w
  = (Returned tt, with_heap (fun _ => wire_store hdr message w) w).
Proof.
  intros Hno. unfold try_send, wire_store, mbind, M_bind, gets, new_object, mret, M_ret.
  rewrite heap_with_heap, with_heap_twice.
  destruct socket as [s | |]; try reflexivity.
  rewrite zmq_with_heap.
  destruct (zmq w !! s) as [z |] eqn:Hz; try reflexivity.
  rewrite (Hno s z eq_refl Hz). reflexivity.
Qed.

(** The [try] block on a socket that can send. *)
Lemma try_send_with_send s z hdr message w :
  zmq w !! s = Some z -> has_send z = true ->
  try_send (Own s) hdr message w
  = let w1 := with_heap (fun _ => wire_store hdr message w) w in
    match encode (wire_store hdr message w) (wire_ref w) with
    | inl e => (Thrown e, w1)
    | inr frames =>
        match zmq_send z frames with
        | Some e => (Thrown e, w1)
        | None => (Returned tt, with_sent (s, frames) w1)
        end
    end.
Proof.
  intros Hz Hsend. unfold try_send, wire_store, wire_ref, mbind, M_bind, gets, new_object,
    mret, M_ret.
  rewrite heap_with_heap, with_heap_twice, zmq_with_heap, Hz, Hsend, heap_with_heap.
  rewrite length_app, Nat.add_1_r. cbv zeta.
  unfold of_result, throw, socket_send, modify, mret, M_ret.
  destruct (encode _ _) as [e | frames]; [reflexivity |].
  destruct (zmq_send z frames); reflexivity.
Qed.

(** A successful [createSockets] constructs four sockets and returns a
    table with exactly the four channel names, each naming its own
    socket: three Dealers with the routing identity, and a Subscriber
    for iopub.  The [next] handler on channel "iopub" then builds the
    wire message and stops there. *)
Lemma createSockets_success
    (config : JupyterConnectionInfo) (subscription identity : option string)
    (w w' : World) (socks : gmap string nat) :
  createSockets config subscription identity w = (Returned socks, w') ->
  let n := length (zmq w) in
  let id := match identity with Some i => i | None => uuid (drawn w) end in
  socks = <["shell" := n]> (<["control" := S n]> (<["stdin" := S (S n)]>
            (<["iopub" := S (S (S n))]> ∅))) /\
  (exists zs zc zi zp,
     zmq w' = zmq w ++ [zs; zc; zi; zp] /\
     stype zs = Dealer id /\ stype zc = Dealer id /\ stype zi = Dealer id /\
     stype zp = Subscriber) /\
  (forall hdr message w2 z,
     zmq w2 !! S (S (S n)) = Some z -> stype z = Subscriber ->
     truthy (get (heap w2) message "channel") = true ->
     to_string (get (heap w2) message "channel") = "iopub" ->
     outgoingMessages_next socks hdr message w2
     = (Returned tt, with_heap (fun _ => wire_store hdr message w2) w2)).
Proof.
  intros Hrun n id.
  assert (Htable : socks = <["shell" := n]> (<["control" := S n]> (<["stdin" := S (S n)]>
                             (<["iopub" := S (S (S n))]> ∅))) /\
                   exists zs zc zi zp,
                     zmq w' = zmq w ++ [zs; zc; zi; zp] /\
                     stype zs = Dealer id /\ stype zc = Dealer id /\ stype zi = Dealer id /\
                     stype zp = Subscriber).
  { subst id. revert Hrun.
    creation_cases createDealer_run createSubscriber_run config; intros Hrun; try discriminate.
    all: injection Hrun as <- <-; simpl.
    all: rewrite <- !app_assoc; simpl; rewrite !length_app; simpl.
    all: rewrite alter_app_r; simpl.
    all: rewrite ?Nat.add_1_r; fold n.
    all: replace (n + 2)%nat with (S (S n)) by lia;
         replace (n + 3)%nat with (S (S (S n))) by lia.
    all: split; [reflexivity |].
    all: eexists _, _, _, _; split; [reflexivity |].
    all: simpl; repeat split; reflexivity. }
  destruct Htable as [Hsocks Hzmq].
  split; [exact Hsocks |]. split; [exact Hzmq |].
  intros hdr message w2 z Hz Hsub Hch Hkey.
  assert (Hm : truthy message = true).
  { destruct message; simpl in Hch; try discriminate. reflexivity. }
  unfold outgoingMessages_next, mbind, M_bind, gets. rewrite Hm, Hch, Hkey. simpl.
  unfold lookup_socket. rewrite Hsocks.
  rewrite !lookup_insert_ne by discriminate. rewrite lookup_insert_eq.
  unfold try_catch. rewrite try_send_without_send; [reflexivity |].
  intros s z0 [= <-] Hz0. rewrite Hz in Hz0. injection Hz0 as <-.
  unfold has_send. rewrite Hsub. reflexivity.
Qed.

(** C7.  After a successful [connect] the socket table has exactly
    the four channel names, each naming its own newly constructed
    socket: Dealers for shell, control and stdin, a Subscriber for
    iopub.  Sending a message whose channel is "iopub" then finds the
    Subscriber, which has no [send]: the wire message is built and
    nothing else happens, nothing is sent, logged or thrown. *)
Theorem connect_table_and_iopub_never_sends
    (this this' : EnchannelJMPConnection) (connectInfo : JupyterConnectionInfo)
    (sessionID : string) (w w' : World) :
  connect this connectInfo sessionID w = (Returned this', w') ->
  let n := length (zmq w) in
  exists c zs zc zi zp,
    mainChannel this' = Some c /\
    sockets c = <["shell" := n]> (<["control" := S n]> (<["stdin" := S (S n)]>
                  (<["iopub" := S (S (S n))]> ∅))) /\
    zmq w' = zmq w ++ [zs; zc; zi; zp] /\
    stype zs = Dealer sessionID /\ stype zc = Dealer sessionID /\
    stype zi = Dealer sessionID /\ stype zp = Subscriber /\
    (forall message w2 z,
       zmq w2 !! S (S (S n)) = Some z -> stype z = Subscriber ->
       truthy (get (heap w2) message "channel") = true ->
       to_string (get (heap w2) message "channel") = "iopub" ->
       sendMessage this' message w2
       = (Returned tt, with_heap (fun _ => wire_store (header c) message w2) w2)).
Proof.
  unfold connect, createMainChannel, createMainChannelFromSockets, or_default,
    default_header, draw_uuid, mbind, M_bind, mret, M_ret.
  destruct (createSockets connectInfo (Some "") (Some sessionID) (with_drawn w))
    as [[socks | e] w1] eqn:Hcreated; [| discriminate].
  intros [= <- <-].
  destruct (createSockets_success _ _ _ _ _ _ Hcreated)
    as (Hsocks & (zs & zc & zi & zp & Hzmq & Hs & Hc & Hi & Hp) & Hpush).
  eexists _, zs, zc, zi, zp. split; [reflexivity |].
  split; [exact Hsocks |]. split; [exact Hzmq |].
  repeat (split; [assumption |]).
  intros message w2 z Hz Hsub Hch Hkey.
  unfold sendMessage, Subject_next, Subscriber_next; simpl.
  rewrite (Hpush _ message w2 z Hz Hsub Hch Hkey). reflexivity.
Qed.

(** *** Messages that go nowhere *)

Lemma no_channel_is_dropped socks hdr message w :
  truthy message = false \/ truthy (get (heap w) message "channel") = false ->
  outgoingMessages_next socks hdr message w
  = (Returned tt, with_warned ("message sent without a channel", message) w).
Proof.
  intros Hfalsy. unfold outgoingMessages_next, mbind, M_bind, gets.
  destruct Hfalsy as [-> | ->]; [| rewrite orb_true_r]; reflexivity.
Qed.

Lemma unknown_channel_is_dropped socks hdr message w :
  truthy message = true ->
  truthy (get (heap w) message "channel") = true ->
  lookup_socket socks (to_string (get (heap w) message "channel")) = Undefined ->
  outgoingMessages_next socks hdr message w
  = (Returned tt, with_warned ("channel not understood for message", message) w).
Proof.
  intros Hm Hc Hnone. unfold outgoingMessages_next, mbind, M_bind, gets.
  rewrite Hm, Hc, Hnone. reflexivity.
Qed.

(** A channel that is the name of a member of Object.prototype resolves
    to that member: the message is dropped without a warning. *)
Lemma inherited_name_is_dropped_silently socks hdr message w :
  truthy message = true ->
  truthy (get (heap w) message "channel") = true ->
  lookup_socket socks (to_string (get (heap w) message "channel")) = Inherited ->
  outgoingMessages_next socks hdr message w
  = (Returned tt, with_heap (fun _ => wire_store hdr message w) w).
Proof.
  intros Hm Hc Hproto. unfold outgoingMessages_next, mbind, M_bind, gets.
  rewrite Hm, Hc, Hproto. simpl. unfold try_catch.
  rewrite try_send_without_send; [reflexivity | discriminate].
Qed.

(** Without an own socket for the channel nothing is sent, whether or
    not a warning is logged. *)
Lemma unroutable_sends_nothing socks hdr message w :
  unroutable socks w message ->
  exists w', outgoingMessages_next socks hdr message w = (Returned tt, w') /\
             sent w' = sent w /\ traced w' = traced w /\ zmq w' = zmq w.
Proof.
  intros Hun.
  destruct (truthy message) eqn:Hm;
    [| rewrite no_channel_is_dropped by auto; eexists; repeat split].
  destruct (truthy (get (heap w) message "channel")) eqn:Hc;
    [| rewrite no_channel_is_dropped by auto; eexists; repeat split].
  destruct Hun as [Hun | [Hun | Hnone]]; try congruence.
  destruct (lookup_socket socks (to_string (get (heap w) message "channel")))
    as [s | |] eqn:Hsock.
  - unfold lookup_socket in Hsock. rewrite Hnone in Hsock.
    destruct (inherited _); discriminate.
  - rewrite inherited_name_is_dropped_silently by assumption. eexists; repeat split.
  - rewrite unknown_channel_is_dropped by assumption. eexists; repeat split.
Qed.

(** C6.  The promise of the [next] handler is never rejected and a
    push always returns, for every message and every state.  When the
    message is routed to a socket that can send and [encode] throws, or
    [encode] succeeds and [send] throws, the error is logged by
    [traceError] together with the message, and nothing is recorded as
    sent. *)
Theorem outbound_failures_are_caught_and_logged
    (c : Channels) (message : value) (w : World) :
  (outgoingMessages_next (sockets c) (header c) message w).1 = Returned tt /\
  (Subject_next c message w).1 = Returned tt /\
  (sendMessage {| mainChannel := Some c |} message w).1 = Returned tt /\
  (forall s z,
     outgoing_stopped c = false ->
     routes_to (sockets c) w message s z ->
     let w' := (Subject_next c message w).2 in
     (forall e,
        encode (wire_store (header c) message w) (wire_ref w) = inl e ->
        traced w' = traced w ++ [("Error sending message", e, message)] /\
        sent w' = sent w) /\
     (forall frames e,
        encode (wire_store (header c) message w) (wire_ref w) = inr frames ->
        zmq_send z frames = Some e ->
        traced w' = traced w ++ [("Error sending message", e, message)] /\
        sent w' = sent w)).
Proof.
  assert (Hpush : (Subject_next c message w).1 = Returned tt).
  { unfold Subject_next, Subscriber_next. destruct (outgoing_stopped c); reflexivity. }
  split; [| split; [exact Hpush | split; [exact Hpush |]]].
  - unfold outgoingMessages_next, mbind, M_bind, gets.
    destruct (negb (truthy message) || negb (truthy (get (heap w) message "channel")));
      [reflexivity |].
    destruct (lookup_socket (sockets c) _) as [s | |]; try reflexivity;
      unfold try_catch;
      match goal with
      | |- context [try_send ?r ?h ?m ?w0] =>
          destruct (try_send r h m w0) as [[[] | e] w']; reflexivity
      end.
  - intros s z Hlive (Hm & Hc & Hsock & Hz & Hsend) w'. subst w'.
    unfold Subject_next, Subscriber_next. rewrite Hlive.
    unfold outgoingMessages_next, mbind, M_bind, gets. rewrite Hm, Hc. simpl.
    unfold lookup_socket. rewrite Hsock. unfold try_catch.
    rewrite (try_send_with_send s z) by assumption. cbv zeta.
    split.
    + intros e ->. split; reflexivity.
    + intros frames e -> ->. split; reflexivity.
Qed.

(** *** The inbound path *)

Lemma socket_message_run (c : Channels) (name : string) (body : value) (w : World) :
  listening c name ->
  socket_message c name body w
  = match decode (heap w) (stamped (heap w) name body) with
    | inr m => (c, with_emission m (observers c) w)
    | inl e => (mkChannels (sockets c) (header c) (outgoing_stopped c) (subject_closed c)
                           (Some e) [], w)
    end.
Proof.
  intros ([s Hs] & Herr & Hobs). unfold socket_message. rewrite Hs, Herr.
  destruct (observers c) as [| o os]; [congruence |].
  unfold incomingMessages_map, stamped, mbind, M_bind, gets, of_result, throw, mret, M_ret.
  destruct (decode _ _); reflexivity.
Qed.

(** An event on a stream nobody listens to, or that has failed, or on
    a name that is not in the table, leaves everything as it is. *)
Lemma socket_message_unheard (c : Channels) (name : string) (body : value) (w : World) :
  sockets c !! name = None \/ incoming_error c <> None \/ observers c = [] ->
  socket_message c name body w = (c, w).
Proof.
  unfold socket_message. intros [-> | [Herr | ->]]; [reflexivity | |].
  - destruct (sockets c !! name); [| reflexivity].
    destruct (incoming_error c); [reflexivity | congruence].
  - destruct (sockets c !! name); [| reflexivity].
    destruct (incoming_error c); reflexivity.
Qed.

(** What the projection does.  On a stream that is listening, the
    event is copied, the copy gets [channel] set to the socket's name and
    loses [idents], and the copy is handed to [decode].  When [decode]
    returns, exactly one message is published, the one it returned,
    and every subscriber receives it; when [decode] throws, nothing is
    published and the stream ends with that error. *)
Lemma inbound_event_publishes_what_decode_returns
    (c : Channels) (name : string) (body : value) (w : World) :
  listening c name ->
  let msg := stamped (heap w) name body in
  msg !! "channel" = Some (VStr name) /\
  msg !! "idents" = None /\
  (forall k, k <> "channel" -> k <> "idents" -> msg !! k = spread (heap w) body !! k) /\
  (forall m, decode (heap w) msg = inr m ->
     exists w', socket_message c name body w = (c, w') /\
                published w' = published w ++ [m] /\
                delivered w' = delivered w ++ map (fun o => (o, m)) (observers c)) /\
  (forall e, decode (heap w) msg = inl e ->
     exists c', socket_message c name body w = (c', w) /\
                incoming_error c' = Some e /\ observers c' = []).
Proof.
  intros Hlisten msg. subst msg. unfold stamped at 1 2 3.
  split; [rewrite lookup_delete_ne by discriminate; apply lookup_insert_eq |].
  split; [apply lookup_delete_eq |].
  split.
  - intros k Hc Hi. rewrite lookup_delete_ne by congruence.
    rewrite lookup_insert_ne by congruence. reflexivity.
  - rewrite (socket_message_run c name body w Hlisten). split.
    + intros m ->. eexists. split; [reflexivity |]. split; reflexivity.
    + intros e ->. eexists. split; [reflexivity |]. split; reflexivity.
Qed.

(** Two events in a row on a listening stream, on the same socket or on two different ones, each decoded
    successfully: both messages are published, in the order the events
    arrived, each being what [decode] returned for the event stamped
    with the name of its own socket. *)
Lemma inbound_order_is_arrival_order
    (c : Channels) (name1 name2 : string) (body1 body2 : value) (w : World) (m1 m2 : obj) :
  listening c name1 ->
  listening c name2 ->
  decode (heap w) (stamped (heap w) name1 body1) = inr m1 ->
  decode (heap w) (stamped (heap w) name2 body2) = inr m2 ->
  exists w1 w2,
    socket_message c name1 body1 w = (c, w1) /\
    socket_message c name2 body2 w1 = (c, w2) /\
    published w2 = published w ++ [m1; m2] /\
    delivered w2 = delivered w ++ map (fun o => (o, m1)) (observers c)
                               ++ map (fun o => (o, m2)) (observers c).
Proof.
  intros H1 H2 Hd1 Hd2.
  exists (with_emission m1 (observers c) w),
         (with_emission m2 (observers c) (with_emission m1 (observers c) w)).
  split; [rewrite (socket_message_run c name1 body1 w H1), Hd1; reflexivity |].
  split.
  - rewrite (socket_message_run c name2 body2 _ H2). simpl. rewrite Hd2. reflexivity.
  - simpl. rewrite <- !app_assoc. split; reflexivity.
Qed.

(** *** Disposal *)

(** [dispose] touches nothing in the world. *)
Lemma dispose_leaves_the_world (this : EnchannelJMPConnection) (w : World) :
  exists this', dispose this w = (Returned this', w) /\
                (sockets <$> mainChannel this') = (sockets <$> mainChannel this) /\
                (observers <$> mainChannel this') = (observers <$> mainChannel this) /\
                (incoming_error <$> mainChannel this') = (incoming_error <$> mainChannel this).
Proof.
  unfold dispose. destruct this as [[c |]]; simpl.
  - eexists. split; [reflexivity |]. repeat split.
  - eexists. split; [reflexivity |]. repeat split.
Qed.

(** An unsubscribed subject hears its sockets as before. *)
Lemma unsubscribed_subject_still_listens (c : Channels) (name : string) (body : value)
    (w : World) :
  (socket_message (Subject_unsubscribe c) name body w).2 = (socket_message c name body w).2.
Proof.
  unfold socket_message, Subject_unsubscribe; simpl.
  destruct (sockets c !! name); [| reflexivity].
  destruct (incoming_error c); [reflexivity |].
  destruct (observers c); [reflexivity |].
  destruct (incomingMessages_map name body w) as [[m | e] w']; reflexivity.
Qed.

(** [complete] runs the completion handler at most once. *)
Lemma Subject_complete_twice (c : Channels) (w : World) :
  exists c1 w1, Subject_complete c w = (Returned c1, w1) /\
                Subject_complete c1 w1 = (Returned c1, w1).
Proof.
  unfold Subject_complete, Subscriber_complete.
  destruct (outgoing_stopped c) eqn:Hstopped.
  - exists c, w. rewrite Hstopped. split; reflexivity.
  - unfold mbind, M_bind.
    assert (Hdone : exists w1, outgoingMessages_complete (sockets c) w = (Returned tt, w1)).
    { unfold outgoingMessages_complete. generalize (map_to_list (sockets c)). intros entries.
      revert w. induction entries as [| entry entries IH]; intros w; simpl.
      - eexists; reflexivity.
      - unfold mbind, M_bind, socket_close, modify. apply IH. }
    destruct Hdone as [w1 ->]. eexists _, w1. split; reflexivity.
Qed.

(** *** The user name *)

Lemma env_or_nonempty (vars : gmap string string) (name otherwise : string) :
  otherwise <> "" -> env_or vars name otherwise <> "".
Proof.
  intros Hne. unfold env_or. destruct (vars !! name) as [s |]; [| exact Hne].
  destruct (String.eqb s "") eqn:Hs; [exact Hne |].
  apply String.eqb_neq. exact Hs.
Qed.

Lemma env_or_empty_is_unset (vars : gmap string string) (k name otherwise : string) :
  env_or (<[k := ""]> vars) name otherwise = env_or (delete k vars) name otherwise.
Proof.
  unfold env_or. destruct (decide (k = name)) as [-> | Hne].
  - rewrite lookup_insert_eq, lookup_delete_eq. reflexivity.
  - rewrite lookup_insert_ne, lookup_delete_ne by exact Hne. reflexivity.
Qed.

Lemma env_or_other_variable (vars : gmap string string) (k v name otherwise : string) :
  k <> name -> env_or (<[k := v]> vars) name otherwise = env_or vars name otherwise.
Proof. intros Hne. unfold env_or. rewrite lookup_insert_ne by exact Hne. reflexivity. Qed.

(** X1.  [getUsername] never returns the empty string: an environment
    variable that is set to "" is passed over, and the chain ends in
    the literal "username". *)
Theorem getUsername_never_empty (environment : gmap string string) :
  getUsername environment <> "".
Proof.
  unfold getUsername. repeat apply env_or_nonempty. discriminate.
Qed.

(** X2.  For [getUsername] a variable set to the empty string is the
    same as a variable that is not set, and no variable other than
    LOGNAME, USER, LNAME and USERNAME has any influence. *)
Theorem getUsername_reads_four_variables (environment : gmap string string) (k v : string) :
  getUsername (<[k := ""]> environment) = getUsername (delete k environment) /\
  (k <> "LOGNAME" -> k <> "USER" -> k <> "LNAME" -> k <> "USERNAME" ->
   getUsername (<[k := v]> environment) = getUsername environment).
Proof.
  unfold getUsername. split.
  - rewrite !env_or_empty_is_unset. reflexivity.
  - intros H1 H2 H3 H4. rewrite !env_or_other_variable by assumption. reflexivity.
Qed.

(** *** Endpoints *)

(** X3.  Within one descriptor the endpoint string determines the
    port: two channels whose ports are different integers never get
    the same endpoint. *)
Theorem formConnectionString_separates_ports
    (config : JupyterConnectionInfo) (c1 c2 : ChannelName) (p1 p2 : Z) (url : string) :
  channel_port config c1 = VNum p1 ->
  channel_port config c2 = VNum p2 ->
  formConnectionString config c1 = inr url ->
  formConnectionString config c2 = inr url ->
  p1 = p2.
Proof.
  unfold formConnectionString. intros -> ->. simpl.
  destruct (negb (p1 =? 0)); [| discriminate].
  destruct (negb (p2 =? 0)); [| discriminate]. simpl.
  intros [= <-] [= Hsame].
  repeat (apply (inj (String.app _)) in Hsame).
  apply (inj pretty) in Hsame. congruence.
Qed.

(** *** One socket, then four *)

(** X4.  A creation that returns has constructed exactly one socket,
    the one it returns: of the type asked for, bound to the endpoint
    the formatter gives for the channel, never closed.  Nothing else
    in the world has changed. *)
Theorem created_socket_is_bound_to_its_endpoint
    (channel : ChannelName) (identity : string) (config : JupyterConnectionInfo)
    (w w' : World) (s : nat) :
  (createDealer channel identity config w = (Returned s, w') ->
   exists url,
     formConnectionString config channel = inr url /\ zmq_bind url = None /\
     s = length (zmq w) /\
     w' = with_zmq (fun zs => zs ++ [unclosed (Dealer identity) (Some url) []]) w) /\
  (createSubscriber channel config w = (Returned s, w') ->
   exists url,
     formConnectionString config channel = inr url /\ zmq_bind url = None /\
     s = length (zmq w) /\
     w' = with_zmq (fun zs => zs ++ [unclosed Subscriber (Some url) []]) w).
Proof.
  rewrite createDealer_run, createSubscriber_run. cbv zeta.
  destruct (formConnectionString config channel) as [e | url];
    [split; discriminate |].
  destruct (zmq_bind url) as [e |] eqn:Hbind; [split; discriminate |].
  split; intros [= <- <-]; exists url; repeat split; try reflexivity; exact Hbind.
Qed.

(** X5.  The socket object is constructed before the port is looked
    up and before [bind]: a creation that fails, for a missing port or
    a refused bind, throws that error and leaves one more socket in
    the world, unbound and not closed. *)
Theorem failed_creation_leaves_a_socket_behind
    (channel : ChannelName) (identity : string) (config : JupyterConnectionInfo)
    (w : World) (e : Error) :
  formConnectionString config channel = inl e \/
  (exists url, formConnectionString config channel = inr url /\ zmq_bind url = Some e) ->
  createDealer channel identity config w
  = (Thrown e, with_zmq (fun zs => zs ++ [unclosed (Dealer identity) None []]) w) /\
  createSubscriber channel config w
  = (Thrown e, with_zmq (fun zs => zs ++ [unclosed Subscriber None []]) w).
Proof.
  rewrite createDealer_run, createSubscriber_run. cbv zeta.
  intros [-> | (url & -> & ->)]; split; reflexivity.
Qed.



(** X7.  When [createSockets] returns, the four sockets it has added
    to the world are: three Dealers carrying the routing identity (the
    one given, else a drawn uuid), bound to the endpoints of shell,
    control and stdin in that order, and one Subscriber bound to the
    endpoint of iopub and subscribed to the filter given, the empty
    filter when none is given. *)
Theorem createSockets_binds_each_channel
    (config : JupyterConnectionInfo) (subscription identity : option string)
    (w w' : World) (socks : gmap string nat) :
  createSockets config subscription identity w = (Returned socks, w') ->
  let id := match identity with Some i => i | None => uuid (drawn w) end in
  let filter := match subscription with Some f => f | None => "" end in
  exists u_shell u_control u_stdin u_iopub,
    formConnectionString config shell = inr u_shell /\
    formConnectionString config control = inr u_control /\
    formConnectionString config stdin = inr u_stdin /\
    formConnectionString config iopub = inr u_iopub /\
    zmq w' = zmq w ++ [ unclosed (Dealer id) (Some u_shell) [];
                        unclosed (Dealer id) (Some u_control) [];
                        unclosed (Dealer id) (Some u_stdin) [];
                        unclosed Subscriber (Some u_iopub) [filter] ].
Proof.
  intros Hrun id filter. subst id filter. revert Hrun.
  creation_cases createDealer_run createSubscriber_run config; intros Hrun;
    try discriminate.
  all: injection Hrun as <- <-.
  all: eexists _, _, _, _; do 4 (split; [reflexivity |]); simpl.
  all: rewrite <- !app_assoc; simpl; rewrite !length_app; simpl.
  all: rewrite alter_app_r; reflexivity.
Qed.

Lemma createSockets_drawn
    (config : JupyterConnectionInfo) (subscription identity : option string) (w : World) :
  drawn (createSockets config subscription identity w).2
  = (drawn w + match identity with Some _ => 0 | None => 1 end)%nat.
Proof.
  creation_cases createDealer_run createSubscriber_run config; simpl; lia.
Qed.

(** X8.  Whatever its outcome, [createSockets] only adds four sockets
    to the world and, when no identity is given, draws one uuid: the
    sockets that existed are as they were, and the store, the logs and
    the streams are untouched. *)
Theorem createSockets_only_adds_sockets
    (config : JupyterConnectionInfo) (subscription identity : option string) (w : World) :
  let w' := (createSockets config subscription identity w).2 in
  (exists new, zmq w' = zmq w ++ new /\ length new = 4%nat) /\
  drawn w' = (drawn w + match identity with Some _ => 0 | None => 1 end)%nat /\
  heap w' = heap w /\ warned w' = warned w /\ traced w' = traced w /\
  sent w' = sent w /\ published w' = published w /\ delivered w' = delivered w.
Proof.
  intros w'. subst w'.
  destruct (createSockets config subscription identity w) as [r w1] eqn:Hrun.
  cbn [snd]. revert Hrun.
  creation_cases createDealer_run createSubscriber_run config; intros [= <- <-]; simpl.
  all: split;
    [ eexists; split;
      [ rewrite <- ?app_assoc; simpl; rewrite ?length_app; simpl;
        rewrite ?alter_app_r; simpl; reflexivity
      | reflexivity ]
    | repeat split; try reflexivity; lia ].
Qed.

(** *** Messages that go out *)

Lemma outgoingMessages_next_sends socks hdr message w s z frames :
  routes_to socks w message s z ->
  encode (wire_store hdr message w) (wire_ref w) = inr frames ->
  zmq_send z frames = None ->
  outgoingMessages_next socks hdr message w
  = (Returned tt, with_sent (s, frames) (with_heap (fun _ => wire_store hdr message w) w)).
Proof.
  intros (Hm & Hc & Hsock & Hz & Hsend) Henc Hsent.
  unfold outgoingMessages_next, mbind, M_bind, gets. rewrite Hm, Hc. simpl.
  unfold lookup_socket. rewrite Hsock. unfold try_catch.
  rewrite (try_send_with_send s z) by assumption. cbv zeta.
  rewrite Henc, Hsent. reflexivity.
Qed.

Lemma outgoingMessages_next_outcomes socks hdr message w :
  let built := with_heap (fun _ => wire_store hdr message w) w in
  let w' := (outgoingMessages_next socks hdr message w).2 in
  (exists text, w' = with_warned (text, message) w) \/
  w' = built \/
  (exists e, w' = with_traced ("Error sending message", e, message) built) \/
  (exists s z frames,
     socks !! to_string (get (heap w) message "channel") = Some s /\
     zmq w !! s = Some z /\ has_send z = true /\
     encode (wire_store hdr message w) (wire_ref w) = inr frames /\
     w' = with_sent (s, frames) built).
Proof.
  intros built w'. subst built w'.
  destruct (truthy message) eqn:Hm;
    [| rewrite no_channel_is_dropped by auto; left; eexists; reflexivity].
  destruct (truthy (get (heap w) message "channel")) eqn:Hc;
    [| rewrite no_channel_is_dropped by auto; left; eexists; reflexivity].
  destruct (lookup_socket socks (to_string (get (heap w) message "channel")))
    as [s | |] eqn:Hsock.
  - assert (Hown : socks !! to_string (get (heap w) message "channel") = Some s).
    { unfold lookup_socket in Hsock.
      destruct (socks !! _) as [s' |]; [congruence |].
      destruct (inherited _); discriminate. }
    unfold outgoingMessages_next, mbind, M_bind, gets. rewrite Hm, Hc, Hsock. simpl.
    unfold try_catch.
    destruct (zmq w !! s) as [z |] eqn:Hz.
    + destruct (has_send z) eqn:Hsend.
      * rewrite (try_send_with_send s z) by assumption. cbv zeta.
        destruct (encode _ _) as [e | frames] eqn:Henc.
        -- right; right; left. exists e. reflexivity.
        -- destruct (zmq_send z frames) as [e |].
           ++ right; right; left. exists e. reflexivity.
           ++ right; right; right. exists s, z, frames. repeat split; assumption.
      * rewrite try_send_without_send; [right; left; reflexivity |].
        intros s' z' [= <-] Hz'. congruence.
    + rewrite try_send_without_send; [right; left; reflexivity |].
      intros s' z' [= <-] Hz'. congruence.
  - rewrite inherited_name_is_dropped_silently by assumption. right; left. reflexivity.
  - rewrite unknown_channel_is_dropped by assumption. left. eexists; reflexivity.
Qed.

Lemma push_sends_once_on_the_named_socket_aux
    (c : Channels) (message : value) (w : World) (s : nat) (z : ZSocket) (frames : Frames) :
  outgoing_stopped c = false ->
  routes_to (sockets c) w message s z ->
  encode (wire_store (header c) message w) (wire_ref w) = inr frames ->
  zmq_send z frames = None ->
  Subject_next c message w
  = (Returned tt,
     with_sent (s, frames) (with_heap (fun _ => wire_store (header c) message w) w)).
Proof.
  intros Hlive Hroute Henc Hsent. unfold Subject_next, Subscriber_next. rewrite Hlive.
  rewrite (outgoingMessages_next_sends _ _ _ _ s z frames) by assumption. reflexivity.
Qed.

(** X9.  A message whose channel names a socket of the table that can
    send, when [encode] and [send] both succeed: the frames [encode]
    returns for the wire message go out once, on that socket, and
    nothing is logged. *)
Theorem push_sends_once_on_the_named_socket
    (c : Channels) (message : value) (w : World) (s : nat) (z : ZSocket) (frames : Frames) :
  outgoing_stopped c = false ->
  routes_to (sockets c) w message s z ->
  encode (wire_store (header c) message w) (wire_ref w) = inr frames ->
  zmq_send z frames = None ->
  Subject_next c message w
  = (Returned tt,
     with_sent (s, frames) (with_heap (fun _ => wire_store (header c) message w) w)).
Proof.
  intros Hlive (Hm & Hc & Hsock & Hz & Hsend) Henc Hsent.
  unfold Subject_next, Subscriber_next. rewrite Hlive.
  unfold outgoingMessages_next, mbind, M_bind, gets. rewrite Hm, Hc. simpl.
  unfold lookup_socket. rewrite Hsock. unfold try_catch.
  rewrite (try_send_with_send s z) by assumption. cbv zeta.
  rewrite Henc, Hsent. reflexivity.
Qed.

(** X10.  A push has one effect at most.  Either nothing happens (the
    subscriber has stopped), or one warning is logged and nothing else
    changes, or the wire message is built in two new cells of the
    store and then nothing more happens, or one error is logged, or
    one frame sequence is sent on the socket the channel names.  It
    never touches a socket, the inbound stream or the identifiers. *)
Theorem push_has_one_effect (c : Channels) (message : value) (w : World) :
  let built := with_heap (fun _ => wire_store (header c) message w) w in
  let w' := (Subject_next c message w).2 in
  (w' = w \/
   (exists text, w' = with_warned (text, message) w) \/
   w' = built \/
   (exists e, w' = with_traced ("Error sending message", e, message) built) \/
   (exists s frames,
      sockets c !! to_string (get (heap w) message "channel") = Some s /\
      w' = with_sent (s, frames) built)) /\
  zmq w' = zmq w /\ published w' = published w /\ delivered w' = delivered w /\
  drawn w' = drawn w.
Proof.
  intros built w'. subst built w'. unfold Subject_next, Subscriber_next.
  destruct (outgoing_stopped c); [split; [left; reflexivity | repeat split] |].
  change ((Returned (), (outgoingMessages_next (sockets c) (header c) message w).2).2)
    with (outgoingMessages_next (sockets c) (header c) message w).2.
  destruct (outgoingMessages_next_outcomes (sockets c) (header c) message w)
    as [[text ->] | [-> | [[e ->] | (s & z & frames & Hs & _ & _ & _ & ->)]]].
  - split; [right; left; eexists; reflexivity | repeat split].
  - split; [right; right; left; reflexivity | repeat split].
  - split; [right; right; right; left; eexists; reflexivity | repeat split].
  - split; [right; right; right; right; exists s, frames; split; [exact Hs | reflexivity]
           | repeat split].
Qed.

(** X11.  Two messages pushed one after the other, both sent: the
    frames leave in the order of the pushes, each on the socket its
    own channel names. *)
Theorem sends_keep_submission_order
    (c : Channels) (m1 m2 : value) (w : World)
    (s1 s2 : nat) (z1 z2 : ZSocket) (f1 f2 : Frames) :
  outgoing_stopped c = false ->
  routes_to (sockets c) w m1 s1 z1 ->
  encode (wire_store (header c) m1 w) (wire_ref w) = inr f1 ->
  zmq_send z1 f1 = None ->
  let w1 := (Subject_next c m1 w).2 in
  routes_to (sockets c) w1 m2 s2 z2 ->
  encode (wire_store (header c) m2 w1) (wire_ref w1) = inr f2 ->
  zmq_send z2 f2 = None ->
  sent (Subject_next c m2 w1).2 = sent w ++ [(s1, f1); (s2, f2)].
Proof.
  intros Hlive H1 He1 Hs1 w1 H2 He2 Hs2.
  rewrite (push_sends_once_on_the_named_socket_aux c m2 w1 s2 z2 f2) by assumption.
  subst w1.
  rewrite (push_sends_once_on_the_named_socket_aux c m1 w s1 z1 f1) by assumption.
  simpl. rewrite <- app_assoc. reflexivity.
Qed.

(** *** Identities *)

(** X12.  The subject [createMainChannel] returns is fresh, and its
    identities are the ones given, or drawn in the order of the
    parameters: the routing identity of the three Dealers first, the
    session of the header second, so that the two are different draws.
    The user name of a default header is [getUsername]. *)
Theorem createMainChannel_draws_identities_in_order
    (config : JupyterConnectionInfo) (subscription identity : option string)
    (hdr : option HeaderFiller) (w w' : World) (c : Channels) :
  createMainChannel config subscription identity hdr w = (Returned c, w') ->
  let for_identity := match identity with Some _ => 0%nat | None => 1%nat end in
  let for_header := match hdr with Some _ => 0%nat | None => 1%nat end in
  let id := match identity with Some i => i | None => uuid (drawn w) end in
  header c = match hdr with
             | Some h => h
             | None => {| session := uuid (drawn w + for_identity);
                          username := getUsername env |}
             end /\
  (exists zs zc zi zp,
     zmq w' = zmq w ++ [zs; zc; zi; zp] /\
     stype zs = Dealer id /\ stype zc = Dealer id /\ stype zi = Dealer id /\
     stype zp = Subscriber) /\
  drawn w' = (drawn w + for_identity + for_header)%nat /\
  outgoing_stopped c = false /\ subject_closed c = false /\
  incoming_error c = None /\ observers c = [].
Proof.
  unfold createMainChannel, createMainChannelFromSockets, or_default, default_header,
    draw_uuid, mbind, M_bind, mret, M_ret.
  destruct subscription as [filter |], identity as [i |], hdr as [h |];
    match goal with
    | |- context [createSockets ?cfg ?f ?i ?w0] =>
        pose proof (createSockets_drawn cfg f i w0) as Hdrawn;
        destruct (createSockets cfg f i w0) as [[socks | e] w1] eqn:Hcreated;
        [| discriminate]
    end;
    intros [= <- <-];
    destruct (createSockets_success _ _ _ _ _ _ Hcreated)
      as (_ & (zs & zc & zi & zp & Hzmq & Hs & Hc & Hi & Hp) & _);
    simpl in *;
    (split; [rewrite ?Nat.add_0_r, ?Nat.add_1_r; reflexivity |]);
    (split; [exists zs, zc, zi, zp; repeat split; assumption |]);
    (split; [lia |]); repeat split.
Qed.

(** X13.  [connect] hands its session id to the sockets, not to the
    header: the session id is the routing identity of the Dealers,
    while the [session] that outgoing headers carry is a uuid drawn at
    connect time, the only one drawn. *)
Theorem connect_session_id_is_the_routing_identity
    (this this' : EnchannelJMPConnection) (connectInfo : JupyterConnectionInfo)
    (sessionID : string) (w w' : World) :
  connect this connectInfo sessionID w = (Returned this', w') ->
  exists c zs zc zi zp,
    mainChannel this' = Some c /\
    header c = {| session := uuid (drawn w); username := getUsername env |} /\
    zmq w' = zmq w ++ [zs; zc; zi; zp] /\
    stype zs = Dealer sessionID /\ stype zc = Dealer sessionID /\
    stype zi = Dealer sessionID /\
    drawn w' = S (drawn w).
Proof.
  unfold connect, createMainChannel, createMainChannelFromSockets, or_default,
    default_header, draw_uuid, mbind, M_bind, mret, M_ret.
  pose proof (createSockets_drawn connectInfo (Some "") (Some sessionID) (with_drawn w))
    as Hdrawn.
  destruct (createSockets connectInfo (Some "") (Some sessionID) (with_drawn w))
    as [[socks | e] w1] eqn:Hcreated; [| discriminate].
  intros [= <- <-].
  destruct (createSockets_success _ _ _ _ _ _ Hcreated)
    as (_ & (zs & zc & zi & zp & Hzmq & Hs & Hc & Hi & _) & _).
  simpl in *. eexists _, zs, zc, zi, zp.
  split; [reflexivity |]. split; [reflexivity |].
  repeat split; try assumption. lia.
Qed.

(** X14.  After a successful [connect], a message for shell, control
    or stdin that is encoded and sent goes out on the first, second or
    third socket of the batch respectively, once. *)
Theorem connect_routes_each_dealer_channel
    (this this' : EnchannelJMPConnection) (connectInfo : JupyterConnectionInfo)
    (sessionID : string) (w w' : World) :
  connect this connectInfo sessionID w = (Returned this', w') ->
  forall (name : string) (k : nat) (c : Channels) (message : value) (w2 : World)
         (z : ZSocket) (frames : Frames),
    (name, k) ∈ [("shell", 0%nat); ("control", 1%nat); ("stdin", 2%nat)] ->
    mainChannel this' = Some c ->
    get (heap w2) message "channel" = VStr name ->
    zmq w2 !! (length (zmq w) + k)%nat = Some z ->
    has_send z = true ->
    encode (wire_store (header c) message w2) (wire_ref w2) = inr frames ->
    zmq_send z frames = None ->
    sendMessage this' message w2
    = (Returned tt,
       with_sent ((length (zmq w) + k)%nat, frames)
                 (with_heap (fun _ => wire_store (header c) message w2) w2)).
Proof.
  unfold connect, createMainChannel, createMainChannelFromSockets, or_default,
    default_header, draw_uuid, mbind, M_bind, mret, M_ret.
  destruct (createSockets connectInfo (Some "") (Some sessionID) (with_drawn w))
    as [[socks | e] w1] eqn:Hcreated; [| discriminate].
  intros [= <- <-] name k c message w2 z frames Hname [= <-] Hch Hz Hsend Henc Hsent.
  destruct (createSockets_success _ _ _ _ _ _ Hcreated) as (Hsocks & _ & _).
  simpl in Hsocks.
  unfold sendMessage. simpl mainChannel. cbv iota.
  apply (push_sends_once_on_the_named_socket_aux _ _ _ _ z); try assumption;
    [reflexivity |].
  assert (Hm : truthy message = true).
  { destruct message; simpl in Hch; try discriminate. reflexivity. }
  unfold routes_to. simpl sockets. rewrite Hch, Hsocks.
  repeat (apply elem_of_cons in Hname as [[= -> ->] | Hname]);
    [ | | | inversion Hname ].
  all: rewrite ?Nat.add_0_r, ?Nat.add_1_r in *;
       replace (length (zmq w) + 2)%nat with (S (S (length (zmq w)))) in * by lia.
  all: repeat split; try assumption; reflexivity.
Qed.

(** *** Completion *)

Lemma with_zmq_id (w : World) : with_zmq (fun zs => zs) w = w.
Proof. destruct w; reflexivity. Qed.

Lemma closing_run (entries : list (string * nat)) (w : World) :
  foldr (fun entry rest => _ ← socket_close entry.2; rest) (mret tt) entries w
  = (Returned tt,
     with_zmq (fun zs => foldl (fun zs entry => alter closed_once_more entry.2 zs) zs entries)
              w).
Proof.
  revert w. induction entries as [| entry entries IH]; intros w; simpl.
  - unfold mret, M_ret. rewrite with_zmq_id. reflexivity.
  - unfold mbind, M_bind, socket_close, modify. rewrite IH. reflexivity.
Qed.

Lemma closed_n_times (n : nat) (z : ZSocket) :
  Nat.iter n closed_once_more z
  = {| stype := stype z; endpoint := endpoint z; topics := topics z;
       closes := (closes z + n)%nat |}.
Proof.
  induction n as [| n IH]; simpl.
  - rewrite Nat.add_0_r. destruct z; reflexivity.
  - rewrite IH. unfold closed_once_more; simpl. f_equal. lia.
Qed.

Lemma closing_lookup (entries : list (string * nat)) (zs : list ZSocket) (s : nat) :
  foldl (fun zs entry => alter closed_once_more entry.2 zs) zs entries !! s
  = Nat.iter (length (filter (fun entry => entry.2 = s) entries)) closed_once_more
    <$> zs !! s.
Proof.
  revert zs. induction entries as [| [name s'] entries IH]; intros zs; simpl.
  - destruct (zs !! s); reflexivity.
  - rewrite IH. destruct (decide (s' = s)) as [-> | Hne].
    + rewrite filter_cons_True by reflexivity. rewrite list_lookup_alter_eq.
      destruct (zs !! s) as [z |]; [| reflexivity].
      change (Some (Nat.iter (length (filter (fun entry => entry.2 = s) entries))
                             closed_once_more (closed_once_more z))
              = Some (Nat.iter (S (length (filter (fun entry => entry.2 = s) entries)))
                               closed_once_more z)).
      rewrite Nat.iter_succ_r. reflexivity.
    + rewrite filter_cons_False by exact Hne. rewrite list_lookup_alter_ne by exact Hne.
      reflexivity.
Qed.

Lemma names_of_none (socks : gmap string nat) (s : nat) :
  (forall name, socks !! name <> Some s) -> names_of socks s = 0%nat.
Proof.
  intros Hnone. unfold names_of.
  destruct (filter (fun entry => entry.2 = s) (map_to_list socks))
    as [| [name s'] named] eqn:Hnamed; [reflexivity |].
  exfalso.
  assert (Hin : (name, s') ∈ filter (fun entry => entry.2 = s) (map_to_list socks))
    by (rewrite Hnamed; left).
  apply list_elem_of_filter in Hin as [Heq Hin]. simpl in Heq. subst s'.
  apply elem_of_map_to_list in Hin. exact (Hnone name Hin).
Qed.

Lemma names_of_one (socks : gmap string nat) (name : string) (s : nat) :
  socks !! name = Some s ->
  (forall name', socks !! name' = Some s -> name' = name) ->
  names_of socks s = 1%nat.
Proof.
  intros Hin Honly. unfold names_of.
  set (named := filter (fun entry => entry.2 = s) (map_to_list socks)).
  assert (Hall : forall entry, entry ∈ named -> entry = (name, s)).
  { intros [name' s'] Hentry. apply list_elem_of_filter in Hentry as [Heq Hentry].
    simpl in Heq. subst s'. apply elem_of_map_to_list in Hentry.
    rewrite (Honly name' Hentry). reflexivity. }
  assert (Hmem : (name, s) ∈ named).
  { apply list_elem_of_filter. split; [reflexivity |].
    apply elem_of_map_to_list. exact Hin. }
  assert (Hnodup : NoDup named) by apply NoDup_filter, NoDup_map_to_list.
  destruct named as [| a [| b rest]].
  - inversion Hmem.
  - reflexivity.
  - exfalso. apply NoDup_cons in Hnodup as [Hnotin _]. apply Hnotin.
    rewrite (Hall a), <- (Hall b); [left | right; left | left].
Qed.

(** X15.  The completion handler calls [close()] on a socket once for
    every name of the table that names it, and changes nothing else:
    a socket the table names once is closed exactly once, a socket the
    table does not name is not closed, and type, endpoint and filters
    of every socket stay as they were.  It never throws. *)
Theorem complete_handler_closes_per_name (socks : gmap string nat) (w : World) :
  outgoingMessages_complete socks w
  = (Returned tt, with_zmq (fun _ => zmq (outgoingMessages_complete socks w).2) w) /\
  length (zmq (outgoingMessages_complete socks w).2) = length (zmq w) /\
  (forall s z, zmq w !! s = Some z ->
     zmq (outgoingMessages_complete socks w).2 !! s
     = Some {| stype := stype z; endpoint := endpoint z; topics := topics z;
               closes := (closes z + names_of socks s)%nat |}) /\
  (forall s, (forall name, socks !! name <> Some s) -> names_of socks s = 0%nat) /\
  (forall name s, socks !! name = Some s ->
     (forall name', socks !! name' = Some s -> name' = name) ->
     names_of socks s = 1%nat).
Proof.
  unfold outgoingMessages_complete. rewrite closing_run. simpl.
  split; [reflexivity |]. split.
  - generalize (map_to_list socks) (zmq w). intros entries.
    induction entries as [| entry entries IH]; intros zs; simpl; [reflexivity |].
    rewrite IH. apply length_alter.
  - split; [| split; [apply names_of_none | apply names_of_one]].
    intros s z Hz. rewrite closing_lookup, Hz. simpl.
    rewrite closed_n_times. reflexivity.
Qed.

(** X16.  [complete] on the subject runs the completion handler the
    first time only: afterwards the subscriber has stopped, a push
    changes nothing and sends nothing, and a second [complete] closes
    nothing. *)
Theorem completed_subject_ignores_pushes (c c' : Channels) (w w' : World) :
  Subject_complete c w = (Returned c', w') ->
  outgoing_stopped c' = true /\
  (outgoing_stopped c = false -> w' = (outgoingMessages_complete (sockets c) w).2) /\
  (forall message, Subject_next c' message w' = (Returned tt, w')) /\
  Subject_complete c' w' = (Returned c', w').
Proof.
  unfold Subject_complete, Subscriber_complete, Subject_next, Subscriber_next.
  destruct (outgoing_stopped c) eqn:Hstopped.
  - intros [= <- <-]. rewrite Hstopped. repeat split. discriminate.
  - unfold mbind, M_bind, outgoingMessages_complete. rewrite closing_run.
    intros [= <- <-]. simpl. repeat split.
Qed.

(** *** Events that come in *)

Lemma socket_messages_unheard (c : Channels) (events : list (string * value)) (w : World) :
  incoming_error c <> None \/ observers c = [] ->
  socket_messages c events w = (c, w).
Proof.
  intros Hdeaf. induction events as [| [name body] later IH]; simpl; [reflexivity |].
  rewrite socket_message_unheard by auto. exact IH.
Qed.

(** X17.  Any number of events on a listening stream, on whatever
    sockets of the table, each of which the codec decodes: the decoded
    messages are published in the order the events arrived, each is
    delivered to every subscriber, and the subject is unchanged. *)
Theorem inbound_sequence_is_published_in_order
    (c : Channels) (events : list (string * value)) (ms : list obj) (w : World) :
  incoming_error c = None ->
  observers c <> [] ->
  Forall2 (fun event m =>
             is_Some (sockets c !! event.1) /\
             decode (heap w) (stamped (heap w) event.1 event.2) = inr m) events ms ->
  exists w',
    socket_messages c events w = (c, w') /\
    published w' = published w ++ ms /\
    delivered w' = delivered w ++ concat (map (fun m => map (fun o => (o, m)) (observers c)) ms) /\
    heap w' = heap w.
Proof.
  intros Herr Hobs Hall. revert w Hall.
  induction events as [| [name body] later IH] in ms |- *; intros w Hall.
  - inversion Hall; subst. exists w. simpl. rewrite !app_nil_r. repeat split.
  - inversion Hall as [| event m later' ms' [Hname Hdec] Hrest]; subst. simpl in *.
    rewrite (socket_message_run c name body w) by (repeat split; assumption).
    rewrite Hdec.
    destruct (IH ms' (with_emission m (observers c) w) Hrest)
      as (w' & Hrun & Hpub & Hdel & Hheap).
    exists w'. split; [exact Hrun |].
    rewrite Hpub, Hdel, Hheap. simpl. rewrite <- !app_assoc. repeat split.
Qed.

(** X18.  An event the codec cannot decode ends the inbound stream
    for good: the events that follow it, on any socket, publish
    nothing and change nothing, and a handler subscribed afterwards
    is not registered. *)
Theorem inbound_failure_is_final
    (c : Channels) (name : string) (body : value) (e : Error)
    (later : list (string * value)) (handler : nat) (w : World) :
  listening c name ->
  decode (heap w) (stamped (heap w) name body) = inl e ->
  socket_messages c ((name, body) :: later) w = (failed_with c e, w) /\
  Subject_subscribe (failed_with c e) handler = failed_with c e.
Proof.
  intros Hlisten Hdec. simpl.
  rewrite (socket_message_run c name body w Hlisten), Hdec.
  split; [| reflexivity].
  apply socket_messages_unheard. left. discriminate.
Qed.

(** X19.  An inbound event writes to nothing but the inbound stream:
    the store (and so the raw event, whose [idents] is deleted on a
    copy), the sockets, the logs, what was sent, and the table, the
    header and the flags of the subject are as before. *)
Theorem inbound_event_touches_only_the_stream
    (c : Channels) (name : string) (body : value) (w : World) :
  let c' := (socket_message c name body w).1 in
  let w' := (socket_message c name body w).2 in
  heap w' = heap w /\ zmq w' = zmq w /\ warned w' = warned w /\ traced w' = traced w /\
  sent w' = sent w /\ drawn w' = drawn w /\
  sockets c' = sockets c /\ header c' = header c /\
  outgoing_stopped c' = outgoing_stopped c /\ subject_closed c' = subject_closed c.
Proof.
  unfold socket_message.
  destruct (sockets c !! name); [| repeat split].
  destruct (incoming_error c); [repeat split |].
  destruct (observers c); [repeat split |].
  unfold incomingMessages_map, mbind, M_bind, gets, of_result, throw, mret, M_ret.
  destruct (decode _ _); repeat split.
Qed.

(** X20.  A handler subscribed through the connection is added after
    the handlers already there, and the next decoded event reaches
    all of them, in the order in which they subscribed. *)
Theorem subscribers_receive_in_subscription_order
    (this : EnchannelJMPConnection) (c : Channels) (handler : nat)
    (name : string) (body : value) (m : obj) (w : World) :
  mainChannel this = Some c ->
  incoming_error c = None ->
  is_Some (sockets c !! name) ->
  decode (heap w) (stamped (heap w) name body) = inr m ->
  exists c',
    mainChannel (subscribe this handler) = Some c' /\
    socket_message c' name body w = (c', with_emission m (observers c ++ [handler]) w) /\
    delivered (with_emission m (observers c ++ [handler]) w)
    = delivered w ++ map (fun o => (o, m)) (observers c) ++ [(handler, m)].
Proof.
  intros Hmain Herr Hname Hdec. unfold subscribe. rewrite Hmain.
  unfold Subject_subscribe. rewrite Herr. eexists. split; [reflexivity |].
  split.
  - rewrite socket_message_run; simpl.
    + rewrite Hdec. reflexivity.
    + repeat split; try assumption. destruct (observers c); discriminate.
  - simpl. rewrite map_app. reflexivity.
Qed.

End Backend.

(** ** The statements at concrete inputs *)

Import Scenario.

(** [connect] on the tcp descriptor leaves the world of the scenario. *)
Lemma connect_reaches_world1 :
  connect bind_ok uuid_seq env_user {| mainChannel := None |} config_tcp "sess" world0
  = (Returned {| mainChannel := Some connected |}, world1).
Proof. reflexivity. Defined.

Lemma listening_duplex_shell : listening duplex "shell".
Proof. split; [eexists; reflexivity | split; [reflexivity | discriminate]]. Defined.

Lemma listening_duplex_iopub : listening duplex "iopub".
Proof. split; [eexists; reflexivity | split; [reflexivity | discriminate]]. Defined.

(** The formatter on a tcp descriptor, on an ipc descriptor, and on a
    descriptor whose iopub port is zero. *)
Lemma formConnectionString_spec_witness :
  formConnectionString config_tcp shell = inr "tcp://127.0.0.1:5001" /\
  formConnectionString config_ipc iopub = inr "ipc:///tmp/kernel-4" /\
  (exists e, formConnectionString config_no_iopub iopub = inl e).
Proof.
  split; [| split].
  - apply (proj1 (formConnectionString_spec config_tcp shell)); reflexivity.
  - apply (proj1 (proj2 (formConnectionString_spec config_ipc iopub))); reflexivity.
  - eexists.
    apply (proj1 (proj2 (proj2 (formConnectionString_spec config_no_iopub iopub)))).
    reflexivity.
Defined.

(** The batch on a descriptor without an iopub port. *)
Lemma createSockets_failure_closes_nothing_witness :
  (exists channel, creation_fails bind_ok config_no_iopub channel) /\
  exists e w',
    createSockets bind_ok uuid_seq config_no_iopub None (Some "sess") world0 = (Thrown e, w') /\
    length (zmq w') = (length (zmq world0) + 4)%nat /\
    nothing_closed world0 w'.
Proof.
  assert (H : exists channel, creation_fails bind_ok config_no_iopub channel).
  { exists iopub. exact I. }
  split; [exact H |].
  exact (createSockets_failure_closes_nothing bind_ok uuid_seq config_no_iopub None
           (Some "sess") world0 H).
Defined.

(** C1 as stated does not hold: with the iopub port missing the batch
    fails, and the shell socket it constructed stays bound to its
    endpoint with no [close()] ever called on it. *)
Lemma createSockets_failure_leaves_bound_sockets_open :
  let run := createSockets bind_ok uuid_seq config_no_iopub None (Some "sess") world0 in
  run.1 = Thrown (mkError ("Port not found for channel " +:+ dquote +:+ "iopub" +:+ dquote)) /\
  zmq run.2 !! 0%nat
  = Some {| stype := Dealer "sess"; endpoint := Some "tcp://127.0.0.1:5001";
            topics := []; closes := 0%nat |} /\
  ~ created_are_closed world0 run.2.
Proof.
  split; [reflexivity |].
  split; [reflexivity |].
  intros Hclosed.
  specialize (Hclosed 0%nat _ (Nat.le_0_l _) eq_refl).
  simpl in Hclosed. lia.
Qed.

(** C2 on the code.  After [connect] and one subscription, [dispose]
    twice returns with the world untouched: every socket of the table
    has been closed zero times.  The subject is flagged closed and
    that is all: an event on the iopub socket after the two disposals
    is decoded, published and delivered to the subscriber. *)
Theorem dispose_twice_closes_no_socket :
  exists disposed,
    connect bind_ok uuid_seq env_user {| mainChannel := None |} config_tcp "sess" world0
    = (Returned {| mainChannel := Some connected |}, world1) /\
    (this1 ← dispose (subscribe {| mainChannel := Some connected |} 7%nat); dispose this1)
      world1
    = (Returned {| mainChannel := Some disposed |}, world1) /\
    map closes (zmq world1) = [0; 0; 0; 0]%nat /\
    subject_closed disposed = true /\
    (socket_message frames_decode disposed "iopub" good_body world1).2
    = with_emission decoded_good [7%nat] world1.
Proof.
  eexists. split; [reflexivity |]. split; [reflexivity |].
  split; [reflexivity |]. split; reflexivity.
Qed.

(** The path [dispose] does not take: [complete] on the subject closes
    each socket of the table once, and a second [complete] closes
    nothing more. *)
Lemma complete_twice_closes_each_socket_once :
  exists completed w,
    Subject_complete connected world1 = (Returned completed, w) /\
    Subject_complete completed w = (Returned completed, w) /\
    map closes (zmq w) = [1; 1; 1; 1]%nat.
Proof.
  eexists _, _. split; [reflexivity |].
  split; reflexivity.
Qed.

(** An event the codec decodes, on iopub. *)
Lemma inbound_event_publishes_what_decode_returns_witness :
  listening duplex "iopub" /\
  exists w',
    socket_message frames_decode duplex "iopub" good_body world1 = (duplex, w') /\
    published w' = published world1 ++ [decoded_good] /\
    delivered w' = delivered world1 ++ map (fun o => (o, decoded_good)) (observers duplex).
Proof.
  split; [exact listening_duplex_iopub |].
  apply (proj1 (proj2 (proj2 (proj2
           (inbound_event_publishes_what_decode_returns frames_decode duplex "iopub"
              good_body world1 listening_duplex_iopub))))).
  reflexivity.
Defined.

(** C3 on the code.  The projection sets [channel] and deletes
    [idents] on the copy it hands to [decode], and publishes what
    [decode] returns: with a codec that returns the six fields of a
    raw message, the message published for a well-formed event on
    iopub has no [channel] and has [idents].  An event the codec
    cannot decode publishes no message and ends the stream. *)
Lemma inbound_event_is_not_always_one_stamped_message :
  (published (socket_message frames_decode duplex "iopub" bad_body world1).2 = [] /\
   incoming_error (socket_message frames_decode duplex "iopub" bad_body world1).1
   = Some (mkError "Not enough elements in the message")) /\
  (exists m,
     published (socket_message frames_decode duplex "iopub" good_body world1).2 = [m] /\
     m !! "channel" = None /\
     m !! "idents" = Some (VArr [])).
Proof.
  split; [split; reflexivity |].
  exists decoded_good. split; [reflexivity |]. split; reflexivity.
Qed.

(** Two events the codec decodes, on shell and then on iopub. *)
Lemma inbound_order_is_arrival_order_witness :
  listening duplex "shell" /\ listening duplex "iopub" /\
  exists w1 w2,
    socket_message frames_decode duplex "shell" good_body world1 = (duplex, w1) /\
    socket_message frames_decode duplex "iopub" good_body w1 = (duplex, w2) /\
    published w2 = published world1 ++ [decoded_good; decoded_good] /\
    delivered w2 = delivered world1 ++ map (fun o => (o, decoded_good)) (observers duplex)
                                    ++ map (fun o => (o, decoded_good)) (observers duplex).
Proof.
  split; [exact listening_duplex_shell |]. split; [exact listening_duplex_iopub |].
  apply (inbound_order_is_arrival_order frames_decode duplex "shell" "iopub"
           good_body good_body world1 decoded_good decoded_good
           listening_duplex_shell listening_duplex_iopub);
    reflexivity.
Defined.

(** An event on shell that the codec cannot decode, then a well-formed
    event on iopub.  The second would be decoded on its own, but the
    first has ended the merged stream and neither appears on it. *)
Lemma failed_decode_silences_the_other_channel :
  let '(c1, w1) := socket_message frames_decode duplex "shell" bad_body world1 in
  let '(c2, w2) := socket_message frames_decode c1 "iopub" good_body w1 in
  frames_decode (heap w1) (stamped (heap w1) "iopub" good_body) = inr decoded_good /\
  published w2 = [] /\
  delivered w2 = [] /\
  observers c2 = [].
Proof. repeat split. Qed.

(** C9 on the code.  Two well-formed events, on shell and then on
    iopub, with a codec that returns the six fields of a raw message.
    Both are published, in the order they arrived; the copies handed
    to [decode] carried the channel names, the two messages published
    carry no [channel] at all, so neither is tagged with its channel. *)
Theorem events_on_two_channels_are_published_untagged :
  let '(c1, w1) := socket_message frames_decode duplex "shell" good_body world1 in
  let '(c2, w2) := socket_message frames_decode c1 "iopub" other_body w1 in
  stamped (heap world1) "shell" good_body !! "channel" = Some (VStr "shell") /\
  stamped (heap w1) "iopub" other_body !! "channel" = Some (VStr "iopub") /\
  published w2 = [decoded_good; decoded_other] /\
  delivered w2 = [(7%nat, decoded_good); (7%nat, decoded_other)] /\
  decoded_good !! "channel" = None /\
  decoded_other !! "channel" = None.
Proof. repeat split. Qed.

(** C5 on the code.  After [connect], a message whose channel is
    "constructor": the table has no such socket, the lookup finds the
    member inherited from Object.prototype, and the message is dropped
    with nothing sent and no warning logged; the message for "bogus"
    is dropped with the warning. *)
Theorem inherited_channel_name_is_dropped_without_warning :
  connect bind_ok uuid_seq env_user {| mainChannel := None |} config_tcp "sess" world0
  = (Returned {| mainChannel := Some connected |}, world1) /\
  get (heap world1) (VRef 5%nat) "channel" = VStr "constructor" /\
  sockets connected !! "constructor" = None /\
  (exists w', Subject_next send_ok frames_encode connected (VRef 5%nat) world1
              = (Returned tt, w') /\
              warned w' = [] /\ sent w' = [] /\ traced w' = []) /\
  (exists w', Subject_next send_ok frames_encode connected (VRef 4%nat) world1
              = (Returned tt, w') /\
              warned w' = [("channel not understood for message", VRef 4%nat)] /\
              sent w' = [] /\ traced w' = []).
Proof.
  split; [reflexivity |]. split; [reflexivity |]. split; [reflexivity |].
  split; eexists; (split; [reflexivity |]); repeat split; reflexivity.
Qed.

(** A shell message when [send] throws, and when [encode] throws. *)
Lemma outbound_failures_are_caught_and_logged_witness :
  routes_to (sockets connected) world1 (VRef 2%nat) 0%nat
    {| stype := Dealer "sess"; endpoint := Some "tcp://127.0.0.1:5001";
       topics := []; closes := 0%nat |} /\
  (traced (Subject_next send_failing frames_encode connected (VRef 2%nat) world1).2
   = [("Error sending message", mkError "Socket temporarily unavailable", VRef 2%nat)] /\
   sent (Subject_next send_failing frames_encode connected (VRef 2%nat) world1).2 = []) /\
  (traced (Subject_next send_ok encode_failing connected (VRef 2%nat) world1).2
   = [("Error sending message", mkError "Converting circular structure to JSON",
       VRef 2%nat)] /\
   sent (Subject_next send_ok encode_failing connected (VRef 2%nat) world1).2 = []).
Proof.
  assert (H : routes_to (sockets connected) world1 (VRef 2%nat) 0%nat
                {| stype := Dealer "sess"; endpoint := Some "tcp://127.0.0.1:5001";
                   topics := []; closes := 0%nat |}).
  { repeat split; reflexivity. }
  split; [exact H |]. split.
  - apply (proj2 (proj2 (proj2 (proj2
             (outbound_failures_are_caught_and_logged send_failing frames_encode
                connected (VRef 2%nat) world1)))
           0%nat _ eq_refl H)
          ["<IDS|MSG>"; "[object Object]"]); reflexivity.
  - apply (proj1 (proj2 (proj2 (proj2
             (outbound_failures_are_caught_and_logged send_ok encode_failing
                connected (VRef 2%nat) world1)))
           0%nat _ eq_refl H)); reflexivity.
Defined.

(** [connect] on the tcp descriptor, then a message for iopub. *)
Lemma connect_table_and_iopub_never_sends_witness :
  connect bind_ok uuid_seq env_user {| mainChannel := None |} config_tcp "sess" world0
  = (Returned {| mainChannel := Some connected |}, world1) /\
  sendMessage send_ok frames_encode {| mainChannel := Some connected |} (VRef 3%nat) world1
  = (Returned tt,
     with_heap (fun _ => wire_store (header connected) (VRef 3%nat) world1) world1).
Proof.
  split; [exact connect_reaches_world1 |].
  destruct (connect_table_and_iopub_never_sends bind_ok send_ok frames_encode uuid_seq
              env_user {| mainChannel := None |} _ config_tcp "sess" world0 _
              connect_reaches_world1)
    as (c & zs & zc & zi & zp & Hc & _ & _ & _ & _ & _ & _ & Hpush).
  injection Hc as <-.
  apply (Hpush (VRef 3%nat) world1
           {| stype := Subscriber; endpoint := Some "tcp://127.0.0.1:5004";
              topics := [""]; closes := 0%nat |});
    reflexivity.
Defined.

(** The shell message of the scenario, whose header names a session
    and a user of its own: the new header is cell 6, it has the
    filler's session and user name and the caller's message id and
    type, and the caller's header, cell 0, is what it was. *)
Lemma header_enrichment_is_a_pure_merge_witness :
  get (heap world1) (VRef 2%nat) "header" = VRef 0%nat /\
  heap world1 !! 0%nat = Some caller_header /\
  caller_header !! "session" = Some (VStr "callers-session") /\
  exists enriched : obj,
    heap world1 !! 6%nat = None /\
    heap (try_send send_ok frames_encode (Own 0%nat) filler (VRef 2%nat) world1).2 !! 6%nat
    = Some enriched /\
    enriched !! "session" = Some (VStr "s-42") /\
    enriched !! "username" = Some (VStr "jovyan") /\
    enriched !! "msg_id" = Some (VStr "m-1") /\
    enriched !! "msg_type" = Some (VStr "execute_request") /\
    heap (try_send send_ok frames_encode (Own 0%nat) filler (VRef 2%nat) world1).2 !! 0%nat
    = Some caller_header.
Proof.
  split; [reflexivity |]. split; [reflexivity |]. split; [reflexivity |].
  destruct (header_enrichment_is_a_pure_merge send_ok frames_encode (Own 0%nat) filler
              (VRef 2%nat) world1)
    as (enriched & jMessage & Hfresh & Hcell & _ & _ & Hsession & Huser & Hkept & _).
  destruct (Hkept 0%nat caller_header eq_refl eq_refl) as [Hfields Hsame].
  exists enriched.
  split; [exact Hfresh |]. split; [exact Hcell |].
  split; [exact Hsession |]. split; [exact Huser |].
  split; [rewrite Hfields by discriminate; reflexivity |].
  split; [rewrite Hfields by discriminate; reflexivity |].
  exact Hsame.
Defined.

(** The header folded for the shell message of the scenario: the
    caller's session and user name are replaced, the rest is kept. *)
Example header_enrichment_on_the_shell_message :
  fold_in_header (spread caller_heap (get caller_heap (VRef 2%nat) "header"))
                 {| session := "uuid-0"; username := "jovyan" |}
  = <["msg_id" := VStr "m-1"]> (<["msg_type" := VStr "execute_request"]>
      (<["session" := VStr "uuid-0"]> (<["username" := VStr "jovyan"]> ∅))).
Proof. reflexivity. Qed.

(** A push of the shell message of the scenario. *)
Lemma push_does_not_mutate_the_message_witness :
  exists jMessage : obj,
    heap (Subject_next send_ok frames_encode connected (VRef 2%nat) world1).2
    = caller_heap ++ [fold_in_header caller_header (header connected); jMessage] /\
    jMessage !! "header" = Some (VRef 6%nat) /\
    jMessage !! "idents" = Some (VArr []).
Proof.
  apply (proj2 (proj2 (push_does_not_mutate_the_message send_ok frames_encode
                         connected (VRef 2%nat) world1)));
    [reflexivity | reflexivity | reflexivity | discriminate].
Defined.

(** ** Further statements at concrete inputs *)

(** An unrelated variable, and LOGNAME set to the empty string. *)
Lemma getUsername_reads_four_variables_witness :
  getUsername (<["LOGNAME" := ""]> env_user) = "jovyan" /\
  getUsername (<["HOME" := "/root"]> env_user) = "jovyan".
Proof.
  split.
  - rewrite (proj1 (getUsername_reads_four_variables env_user "LOGNAME" "")). reflexivity.
  - rewrite (proj2 (getUsername_reads_four_variables env_user "HOME" "/root"))
      by discriminate.
    reflexivity.
Defined.

(** The shell endpoint of the tcp descriptor, read twice. *)
Lemma formConnectionString_separates_ports_witness :
  channel_port config_tcp shell = VNum 5001 /\
  formConnectionString config_tcp shell = inr "tcp://127.0.0.1:5001" /\
  5001 = 5001.
Proof.
  split; [reflexivity |]. split; [reflexivity |].
  apply (formConnectionString_separates_ports config_tcp shell shell 5001 5001
           "tcp://127.0.0.1:5001"); reflexivity.
Defined.

(** A Dealer for shell on the tcp descriptor. *)
Lemma created_socket_is_bound_to_its_endpoint_witness :
  createDealer bind_ok shell "sess" config_tcp world0
  = (Returned 0%nat,
     with_zmq (fun zs => zs ++ [unclosed (Dealer "sess") (Some "tcp://127.0.0.1:5001") []])
              world0) /\
  exists url,
    formConnectionString config_tcp shell = inr url /\ bind_ok url = None /\
    0%nat = length (zmq world0) /\
    with_zmq (fun zs => zs ++ [unclosed (Dealer "sess") (Some "tcp://127.0.0.1:5001") []])
             world0
    = with_zmq (fun zs => zs ++ [unclosed (Dealer "sess") (Some url) []]) world0.
Proof.
  assert (H : createDealer bind_ok shell "sess" config_tcp world0
              = (Returned 0%nat,
                 with_zmq (fun zs => zs ++ [unclosed (Dealer "sess")
                                              (Some "tcp://127.0.0.1:5001") []]) world0))
    by reflexivity.
  split; [exact H |].
  exact (proj1 (created_socket_is_bound_to_its_endpoint bind_ok shell "sess" config_tcp
                  world0 _ 0%nat) H).
Defined.

(** A Subscriber for iopub on the descriptor without an iopub port. *)
Lemma failed_creation_leaves_a_socket_behind_witness :
  formConnectionString config_no_iopub iopub
  = inl (mkError ("Port not found for channel " +:+ dquote +:+ "iopub" +:+ dquote)) /\
  createSubscriber bind_ok iopub config_no_iopub world0
  = (Thrown (mkError ("Port not found for channel " +:+ dquote +:+ "iopub" +:+ dquote)),
     with_zmq (fun zs => zs ++ [unclosed Subscriber None []]) world0).
Proof.
  assert (H : formConnectionString config_no_iopub iopub
              = inl (mkError ("Port not found for channel " +:+ dquote +:+ "iopub"
                              +:+ dquote))) by reflexivity.
  split; [exact H |].
  exact (proj2 (failed_creation_leaves_a_socket_behind bind_ok iopub "sess"
                  config_no_iopub world0 _ (or_introl H))).
Defined.



Lemma createSockets_reaches_four_sockets :
  createSockets bind_ok uuid_seq config_tcp None (Some "sess") world0
  = (Returned table, mkWorld caller_heap four_sockets [] [] [] [] [] 0%nat).
Proof. reflexivity. Defined.

(** The batch on the tcp descriptor. *)
Lemma createSockets_binds_each_channel_witness :
  createSockets bind_ok uuid_seq config_tcp None (Some "sess") world0
  = (Returned table, mkWorld caller_heap four_sockets [] [] [] [] [] 0%nat) /\
  exists u_shell u_control u_stdin u_iopub,
    formConnectionString config_tcp shell = inr u_shell /\
    formConnectionString config_tcp control = inr u_control /\
    formConnectionString config_tcp stdin = inr u_stdin /\
    formConnectionString config_tcp iopub = inr u_iopub /\
    four_sockets = [ unclosed (Dealer "sess") (Some u_shell) [];
                     unclosed (Dealer "sess") (Some u_control) [];
                     unclosed (Dealer "sess") (Some u_stdin) [];
                     unclosed Subscriber (Some u_iopub) [""] ].
Proof.
  split; [exact createSockets_reaches_four_sockets |].
  exact (createSockets_binds_each_channel bind_ok uuid_seq config_tcp None (Some "sess")
           world0 _ _ createSockets_reaches_four_sockets).
Defined.

Lemma shell_message_routes_to_the_first_socket :
  routes_to (sockets connected) world1 (VRef 2%nat) 0%nat
    (unclosed (Dealer "sess") (Some "tcp://127.0.0.1:5001") []).
Proof. repeat split; reflexivity. Defined.

(** The shell message of the scenario, encoded and sent. *)
Lemma push_sends_once_on_the_named_socket_witness :
  Subject_next send_ok frames_encode connected (VRef 2%nat) world1
  = (Returned tt,
     with_sent (0%nat, ["<IDS|MSG>"; "[object Object]"])
               (with_heap (fun _ => wire_store (header connected) (VRef 2%nat) world1)
                          world1)).
Proof.
  apply (push_sends_once_on_the_named_socket send_ok frames_encode connected (VRef 2%nat)
           world1 0%nat _ _ eq_refl shell_message_routes_to_the_first_socket);
    reflexivity.
Defined.

(** The shell message of the scenario, pushed twice. *)
Lemma sends_keep_submission_order_witness :
  sent (Subject_next send_ok frames_encode connected (VRef 2%nat)
          (Subject_next send_ok frames_encode connected (VRef 2%nat) world1).2).2
  = sent world1 ++ [ (0%nat, ["<IDS|MSG>"; "[object Object]"]);
                     (0%nat, ["<IDS|MSG>"; "[object Object]"]) ].
Proof.
  apply (sends_keep_submission_order send_ok frames_encode connected (VRef 2%nat)
           (VRef 2%nat) world1 0%nat 0%nat
           (unclosed (Dealer "sess") (Some "tcp://127.0.0.1:5001") [])
           (unclosed (Dealer "sess") (Some "tcp://127.0.0.1:5001") [])
           _ _ eq_refl shell_message_routes_to_the_first_socket);
    try reflexivity.
  repeat split; reflexivity.
Defined.

Lemma createMainChannel_with_defaults :
  createMainChannel bind_ok uuid_seq env_user config_tcp None None None world0
  = (Returned (mkChannels table {| session := "uuid-1"; username := "jovyan" |}
                          false false None []),
     (createMainChannel bind_ok uuid_seq env_user config_tcp None None None world0).2).
Proof. reflexivity. Defined.

(** [createMainChannel] with every optional argument omitted: the
    Dealers get the first uuid, the header the second. *)
Lemma createMainChannel_draws_identities_in_order_witness :
  createMainChannel bind_ok uuid_seq env_user config_tcp None None None world0
  = (Returned (mkChannels table {| session := "uuid-1"; username := "jovyan" |}
                          false false None []),
     (createMainChannel bind_ok uuid_seq env_user config_tcp None None None world0).2) /\
  exists zs zc zi zp,
    zmq (createMainChannel bind_ok uuid_seq env_user config_tcp None None None world0).2
    = zmq world0 ++ [zs; zc; zi; zp] /\
    stype zs = Dealer "uuid-0" /\ stype zc = Dealer "uuid-0" /\ stype zi = Dealer "uuid-0" /\
    stype zp = Subscriber.
Proof.
  split; [exact createMainChannel_with_defaults |].
  exact (proj1 (proj2 (createMainChannel_draws_identities_in_order bind_ok send_ok
                         frames_encode uuid_seq env_user config_tcp None None None world0
                         _ _ createMainChannel_with_defaults))).
Defined.

(** [connect] with the session "sess". *)
Lemma connect_session_id_is_the_routing_identity_witness :
  connect bind_ok uuid_seq env_user {| mainChannel := None |} config_tcp "sess" world0
  = (Returned {| mainChannel := Some connected |}, world1) /\
  exists c zs zc zi zp,
    Some connected = Some c /\
    header c = {| session := "uuid-0"; username := "jovyan" |} /\
    zmq world1 = zmq world0 ++ [zs; zc; zi; zp] /\
    stype zs = Dealer "sess" /\ stype zc = Dealer "sess" /\ stype zi = Dealer "sess" /\
    drawn world1 = 1%nat.
Proof.
  split; [exact connect_reaches_world1 |].
  exact (connect_session_id_is_the_routing_identity bind_ok send_ok frames_encode
           uuid_seq env_user {| mainChannel := None |} _ config_tcp "sess" world0 _
           connect_reaches_world1).
Defined.

(** [connect], then the shell message of the scenario. *)
Lemma connect_routes_each_dealer_channel_witness :
  connect bind_ok uuid_seq env_user {| mainChannel := None |} config_tcp "sess" world0
  = (Returned {| mainChannel := Some connected |}, world1) /\
  sendMessage send_ok frames_encode {| mainChannel := Some connected |} (VRef 2%nat) world1
  = (Returned tt,
     with_sent (0%nat, ["<IDS|MSG>"; "[object Object]"])
               (with_heap (fun _ => wire_store (header connected) (VRef 2%nat) world1)
                          world1)).
Proof.
  split; [exact connect_reaches_world1 |].
  apply (connect_routes_each_dealer_channel bind_ok send_ok frames_encode uuid_seq env_user
           {| mainChannel := None |} _ config_tcp "sess" world0 _ connect_reaches_world1
           "shell" 0%nat connected (VRef 2%nat) world1
           (unclosed (Dealer "sess") (Some "tcp://127.0.0.1:5001") []));
    try reflexivity.
  left.
Defined.

Lemma shell_names_the_first_socket_only (name : string) :
  table !! name = Some 0%nat -> name = "shell".
Proof.
  unfold table. intros Hname.
  apply lookup_insert_Some in Hname as [[<- _] | [_ Hname]]; [reflexivity |].
  apply lookup_insert_Some in Hname as [[_ [=]] | [_ Hname]].
  apply lookup_insert_Some in Hname as [[_ [=]] | [_ Hname]].
  apply lookup_insert_Some in Hname as [[_ [=]] | [_ Hname]].
  rewrite lookup_empty in Hname. discriminate.
Defined.

(** The completion handler on the table of the scenario: the shell
    socket, named once, is closed once. *)
Lemma complete_handler_closes_per_name_witness :
  zmq (outgoingMessages_complete table world1).2 !! 0%nat
  = Some {| stype := Dealer "sess"; endpoint := Some "tcp://127.0.0.1:5001";
            topics := []; closes := (0 + names_of table 0)%nat |} /\
  names_of table 0%nat = 1%nat.
Proof.
  destruct (complete_handler_closes_per_name table world1) as (_ & _ & Hcloses & _ & Hone).
  split.
  - exact (Hcloses 0%nat (unclosed (Dealer "sess") (Some "tcp://127.0.0.1:5001") [])
             eq_refl).
  - exact (Hone "shell" 0%nat eq_refl shell_names_the_first_socket_only).
Defined.

Lemma complete_reaches_completed :
  Subject_complete connected world1
  = (Returned (mkChannels table {| session := "uuid-0"; username := "jovyan" |}
                          true false None []),
     (Subject_complete connected world1).2).
Proof. reflexivity. Defined.

(** [complete] on the subject of the scenario, then a push. *)
Lemma completed_subject_ignores_pushes_witness :
  Subject_complete connected world1
  = (Returned (mkChannels table {| session := "uuid-0"; username := "jovyan" |}
                          true false None []),
     (Subject_complete connected world1).2) /\
  Subject_next send_ok frames_encode
    (mkChannels table {| session := "uuid-0"; username := "jovyan" |} true false None [])
    (VRef 2%nat) (Subject_complete connected world1).2
  = (Returned tt, (Subject_complete connected world1).2).
Proof.
  split; [exact complete_reaches_completed |].
  exact (proj1 (proj2 (proj2 (completed_subject_ignores_pushes send_ok frames_encode
                                connected _ world1 _ complete_reaches_completed)))
           (VRef 2%nat)).
Defined.

(** Two decodable events, on shell and on iopub. *)
Lemma inbound_sequence_is_published_in_order_witness :
  exists w',
    socket_messages frames_decode duplex [("shell", good_body); ("iopub", good_body)] world1
    = (duplex, w') /\
    published w' = published world1 ++ [decoded_good; decoded_good] /\
    delivered w'
    = delivered world1
      ++ concat (map (fun m => map (fun o => (o, m)) (observers duplex))
                     [decoded_good; decoded_good]) /\
    heap w' = heap world1.
Proof.
  apply (inbound_sequence_is_published_in_order frames_decode duplex
           [("shell", good_body); ("iopub", good_body)] [decoded_good; decoded_good] world1).
  - reflexivity.
  - discriminate.
  - repeat constructor; eexists; reflexivity.
Defined.

(** An undecodable event on shell, then a well-formed one on iopub. *)
Lemma inbound_failure_is_final_witness :
  listening duplex "shell" /\
  socket_messages frames_decode duplex [("shell", bad_body); ("iopub", good_body)] world1
  = (failed_with duplex (mkError "Not enough elements in the message"), world1).
Proof.
  split; [exact listening_duplex_shell |].
  exact (proj1 (inbound_failure_is_final frames_decode duplex "shell" bad_body
                  (mkError "Not enough elements in the message")
                  [("iopub", good_body)] 8%nat world1 listening_duplex_shell eq_refl)).
Defined.

(** A second handler subscribed to the duplex of the scenario. *)
Lemma subscribers_receive_in_subscription_order_witness :
  exists c',
    mainChannel (subscribe {| mainChannel := Some duplex |} 8%nat) = Some c' /\
    socket_message frames_decode c' "iopub" good_body world1
    = (c', with_emission decoded_good (observers duplex ++ [8%nat]) world1) /\
    delivered (with_emission decoded_good (observers duplex ++ [8%nat]) world1)
    = delivered world1 ++ map (fun o => (o, decoded_good)) (observers duplex)
                       ++ [(8%nat, decoded_good)].
Proof.
  apply (subscribers_receive_in_subscription_order frames_decode
           {| mainChannel := Some duplex |} duplex 8%nat "iopub" good_body decoded_good
           world1);
    [reflexivity | reflexivity | eexists; reflexivity | reflexivity].
Defined.
